(** * Media Analysis Bot (app.py): shallow embedding and verified properties

    The script is a Streamlit page: it obtains an API key, collects an
    uploaded image or video and a question, turns the media into a base64
    payload (the whole image file, or the middle frame of the video encoded
    as JPEG) and sends one chat completion request to a vision model.

    The embedding follows app.py function by function.  Effects (the page,
    the temporary directory, the video decoder, the network) are threaded
    through a small state-and-exception monad; every call that leaves the
    script is recorded in a log in the order in which it is made. *)

From Stdlib Require Import ZArith NArith QArith Lia List.
From Stdlib Require Import Strings.String Strings.Ascii Strings.Byte.
From stdpp Require Import gmap strings list.

Local Open Scope string_scope.
Local Open Scope list_scope.

(** ** Python values used by the script *)

(** [bytes] objects. *)
Abbreviation bytes := (list byte).

(** [str] objects, held as their UTF-8 text. *)
Abbreviation str := string.

(** Truthiness of a [str]: only the empty string is falsy. *)
Definition truthy_str (s : str) : bool :=
  match s with
  | EmptyString => false
  | String _ _ => true
  end.

(** Truthiness of an optional value ([None] is falsy, otherwise the
    truthiness of the value itself). *)
Definition truthy_opt {A} (t : A -> bool) (o : option A) : bool :=
  match o with
  | None => false
  | Some a => t a
  end.

(** [f"{x}"] for a value that is either [None] or a [str]. *)
Definition format_value (o : option str) : str :=
  match o with
  | None => "None"
  | Some s => s
  end.

(** Exceptions derived from [Exception]: the class name and [str(e)]. *)
Record exn := Exception { exn_class : str; exn_str : str }.

(** ** The [base64] module (RFC 4648, standard alphabet, with padding) *)

Module base64.

Definition alphabet : bytes :=
  list_byte_of_string
    "ABCDEFGHIJKLMNOPQRSTUVWXYZabcdefghijklmnopqrstuvwxyz0123456789+/".

Definition pad : byte := "="%byte.

(** The character of a 6-bit value. *)
Definition char_of (n : N) : byte := nth (N.to_nat n) alphabet pad.

Fixpoint index_from (i : N) (tbl : bytes) (c : byte) : option N :=
  match tbl with
  | [] => None
  | t :: tbl' => if Byte.eqb t c then Some i else index_from (N.succ i) tbl' c
  end.

(** The 6-bit value of an alphabet character. *)
Definition index_of (c : byte) : option N := index_from 0 alphabet c.

Definition byte_of (n : N) : byte :=
  match Byte.of_N n with
  | Some b => b
  | None => "000"%byte
  end.

(** Three input bytes as four 6-bit values. *)
Definition sextets (a b c : N) : N * N * N * N :=
  (N.shiftr a 2,
   N.lor (N.shiftl (N.land a 3) 4) (N.shiftr b 4),
   N.lor (N.shiftl (N.land b 15) 2) (N.shiftr c 6),
   N.land c 63).

(** Four 6-bit values as three bytes. *)
Definition octets (s1 s2 s3 s4 : N) : N * N * N :=
  (N.lor (N.shiftl s1 2) (N.shiftr s2 4),
   N.lor (N.shiftl (N.land s2 15) 4) (N.shiftr s3 2),
   N.lor (N.shiftl (N.land s3 3) 6) s4).

(** [base64.b64encode]: groups of three bytes become four characters; a
    final group of one or two bytes is padded with [=]. *)
Fixpoint b64encode (bs : bytes) : bytes :=
  match bs with
  | [] => []
  | [a] =>
      let '(s1, s2, _, _) := sextets (Byte.to_N a) 0 0 in
      [char_of s1; char_of s2; pad; pad]
  | [a; b] =>
      let '(s1, s2, s3, _) := sextets (Byte.to_N a) (Byte.to_N b) 0 in
      [char_of s1; char_of s2; char_of s3; pad]
  | a :: b :: c :: rest =>
      let '(s1, s2, s3, s4) :=
        sextets (Byte.to_N a) (Byte.to_N b) (Byte.to_N c) in
      char_of s1 :: char_of s2 :: char_of s3 :: char_of s4 :: b64encode rest
  end.

(** One group of four characters; only the last group may be padded. *)
Definition decode_group (last : bool) (c1 c2 c3 c4 : byte)
  : option bytes :=
  match index_of c1, index_of c2 with
  | Some s1, Some s2 =>
      if last && Byte.eqb c3 pad && Byte.eqb c4 pad then
        let '(a, _, _) := octets s1 s2 0 0 in Some [byte_of a]
      else
        match index_of c3 with
        | Some s3 =>
            if last && Byte.eqb c4 pad then
              let '(a, b, _) := octets s1 s2 s3 0 in
              Some [byte_of a; byte_of b]
            else
              match index_of c4 with
              | Some s4 =>
                  let '(a, b, c) := octets s1 s2 s3 s4 in
                  Some [byte_of a; byte_of b; byte_of c]
              | None => None
              end
        | None => None
        end
  | _, _ => None
  end.

Definition is_nil {A} (l : list A) : bool :=
  match l with
  | [] => true
  | _ :: _ => false
  end.

(** Strict decoding of a base64 text: the length is a multiple of four,
    every character is in the alphabet, padding only ends the text. *)
Fixpoint decode_bytes (cs : bytes) : option bytes :=
  match cs with
  | [] => Some []
  | c1 :: c2 :: c3 :: c4 :: rest =>
      match decode_group (is_nil rest) c1 c2 c3 c4, decode_bytes rest with
      | Some g, Some bs => Some (g ++ bs)
      | _, _ => None
      end
  | _ => None
  end.

(** [base64.b64decode] of a [str]. *)
Definition b64decode (s : str) : option bytes :=
  decode_bytes (list_byte_of_string s).

End base64.

(** ** [bytes.decode('utf-8')] *)

Module utf8.

Definition between (lo hi : N) (b : byte) : bool :=
  (lo <=? Byte.to_N b)%N && (Byte.to_N b <=? hi)%N.

Definition cont : byte -> bool := between 128 191.

(** Well-formed UTF-8 byte sequences (Unicode, table 3-7).  [fuel] bounds
    the number of code points and is taken as the length of the input. *)
Fixpoint well_formed (fuel : nat) (bs : bytes) : bool :=
  match fuel with
  | O => base64.is_nil bs
  | S fuel' =>
      match bs with
      | [] => true
      | b1 :: r1 =>
          if between 0 127 b1 then well_formed fuel' r1
          else
            match r1 with
            | [] => false
            | b2 :: r2 =>
                if between 194 223 b1 then cont b2 && well_formed fuel' r2
                else
                  match r2 with
                  | [] => false
                  | b3 :: r3 =>
                      if between 224 224 b1 then
                        between 160 191 b2 && cont b3 && well_formed fuel' r3
                      else if between 225 236 b1 || between 238 239 b1 then
                        cont b2 && cont b3 && well_formed fuel' r3
                      else if between 237 237 b1 then
                        between 128 159 b2 && cont b3 && well_formed fuel' r3
                      else
                        match r3 with
                        | [] => false
                        | b4 :: r4 =>
                            if between 240 240 b1 then
                              between 144 191 b2 && cont b3 && cont b4
                              && well_formed fuel' r4
                            else if between 241 243 b1 then
                              cont b2 && cont b3 && cont b4
                              && well_formed fuel' r4
                            else if between 244 244 b1 then
                              between 128 143 b2 && cont b3 && cont b4
                              && well_formed fuel' r4
                            else false
                        end
                  end
            end
      end
  end.

(** [bs.decode('utf-8')]: the text when [bs] is well formed, otherwise a
    [UnicodeDecodeError]. *)
Definition decode (bs : bytes) : exn + str :=
  if well_formed (length bs) bs then inr (string_of_list_byte bs)
  else inl (Exception "UnicodeDecodeError"
              "'utf-8' codec can't decode bytes").

End utf8.

(** ** Values that cross the boundary of the script *)

(** Nested [dict]/[list]/[str] literals, as passed to the client library.
    A [dict] keeps its keys in insertion order. *)
#[warnings="-register-all"]
Inductive pyval :=
| PStr (s : str)
| PList (items : list pyval)
| PDict (entries : list (str * pyval)).

(** A decoded video frame: rows of pixels, each pixel three channels. *)
Definition Frame : Type := list (list (byte * byte * byte)).

(** A [PIL.Image.Image]. *)
Record Image := { mode : str; pixels : Frame }.

(** What the decoder makes of a file: whether it can be opened, the frame
    count it reports, and the frame it yields at each position (if any). *)
Record Video := {
  opened : bool;
  frame_count : Z;
  frame_at : Z -> option Frame
}.

(** The file object handed out by the upload widget (an in-memory stream). *)
Module UploadedFile.
Record t := { name : str; size : Z; data : bytes; closed : bool }.
End UploadedFile.

(** Keyword arguments of [client.chat.completions.create]. *)
Record request := {
  messages : pyval;
  model : str;
  temperature : Q;
  max_tokens : Z
}.

Record Message := { content : option str }.
Record Choice := { message : Message }.
Record response := { choices : list Choice }.

Record Groq := { api_key : str }.

Inductive media := Image_choice | Video_choice.

(** Everything outside the script during one run of the page. *)
Record Env := {
  secrets : gmap string str;            (* st.secrets *)
  secret_error : str -> exn;            (* what a failed lookup raises *)
  key_typed : str;                      (* content of the API key prompt *)
  media_picked : media;                 (* state of the radio button *)
  uploaded : option UploadedFile.t;     (* state of the upload widget *)
  question : str;                       (* content of the question box *)
  render : bytes -> exn + unit;         (* displaying an image file *)
  tmp_name : gmap string bytes -> str;  (* name chosen for a temporary file *)
  demux : bytes -> Video;               (* the decoder, on a file's content *)
  jpeg : Frame -> exn + bytes;          (* the JPEG encoder *)
  endpoint : str -> request -> exn + response (* the remote model *)
}.

(** The label of the selected radio option. *)
Definition media_label (E : Env) : str :=
  match media_picked E with
  | Image_choice => "Image"
  | Video_choice => "Video"
  end.

(** ** Effects *)

(** Calls that leave the script, as recorded in the log. *)
Inductive event :=
| EvPageConfig (page_title page_icon layout : str)
| EvTitle (s : str)
| EvWrite (s : str)
| EvWarning (s : str)
| EvError (s : str)
| EvSuccess (s : str)
| EvImage (caption : str)
| EvSpinner (s : str)
| EvExpander (s : str)
| EvRadio (label : str) (options : list str)
| EvFileUploader (label : str) (types : list str) (help : str)
| EvTextInput (label : str) (password : bool)
| EvStop
| EvSeek (pos : nat)
| EvRead
| EvTempFile (path : str)
| EvUnlink (path : str)
| EvCapture (path : str)
| EvCapGet
| EvCapSet (pos : Z)
| EvCapRead (pos : Z)
| EvCapRelease
| EvImencode (ext : str)
| EvCreate (key : str) (req : request).

(** The state a run acts on: the files on disk, the read position of the
    uploaded stream, and the log (latest call first). *)
Record World := {
  files : gmap string bytes;
  cursor : nat;
  log : list event
}.

(** How a computation ends: with a value, with an exception derived from
    [Exception], or with the page's stop signal (raised by [st.stop], not
    derived from [Exception]). *)
Inductive outcome (A : Type) :=
| Return (a : A)
| Raise (e : exn)
| Stopped.
Arguments Return {A} a.
Arguments Raise {A} e.
Arguments Stopped {A}.

Definition M (A : Type) : Type := World -> outcome A * World.

Definition ret {A} (a : A) : M A := fun w => (Return a, w).

Definition bind {A B} (m : M A) (k : A -> M B) : M B :=
  fun w =>
    match m w with
    | (Return a, w') => k a w'
    | (Raise e, w') => (Raise e, w')
    | (Stopped, w') => (Stopped, w')
    end.

Definition raise {A} (e : exn) : M A := fun w => (Raise e, w).

(** [try: body except Exception as e: handler e]. *)
Definition try_except {A} (body : M A) (handler : exn -> M A) : M A :=
  fun w =>
    match body w with
    | (Raise e, w') => handler e w'
    | r => r
    end.

(** A library call that either raises or returns. *)
Definition lift {A} (r : exn + A) : M A :=
  match r with
  | inl e => raise e
  | inr a => ret a
  end.

Definition emit (e : event) : M unit :=
  fun w => (Return tt, {| files := files w; cursor := cursor w;
                          log := e :: log w |}).

Declare Scope py_scope.
Delimit Scope py_scope with py.
Notation "x <- m ;; k" := (bind m (fun x => k))
  (at level 100, m at level 99, k at level 200, right associativity,
   only parsing) : py_scope.
Notation "m ;; k" := (bind m (fun _ => k))
  (at level 100, k at level 200, right associativity, only parsing)
  : py_scope.
Local Open Scope py_scope.

(** ** The libraries the script calls *)

(** Streamlit. *)
Module st.

Definition set_page_config (page_title page_icon layout : str) : M unit :=
  emit (EvPageConfig page_title page_icon layout).
Definition title (s : str) : M unit := emit (EvTitle s).
Definition write (s : str) : M unit := emit (EvWrite s).
Definition warning (s : str) : M unit := emit (EvWarning s).
Definition error (s : str) : M unit := emit (EvError s).
Definition success (s : str) : M unit := emit (EvSuccess s).
Definition image (caption : str) : M unit := emit (EvImage caption).
Definition spinner (s : str) : M unit := emit (EvSpinner s).
Definition expander (s : str) : M unit := emit (EvExpander s).

(** [st.image] on an uploaded file: the page decodes the file to show it,
    which fails on content that is not an image. *)
Definition image_file (E : Env) (file : UploadedFile.t) (caption : str)
  : M unit :=
  emit (EvImage caption) ;;
  lift (render E (UploadedFile.data file)).

(** [st.secrets[key]].  A key that is not found raises the exception the
    secrets store builds for it: a [KeyError] carrying the store's own
    sentence, or its secret-not-found error when there is no secrets file
    at all (a store without any entry).  Both derive from [Exception]; the
    class and the message are the environment's. *)
Definition secrets_getitem (E : Env) (key : str) : M str :=
  match secrets E !! key with
  | Some v => ret v
  | None => raise (secret_error E key)
  end.

(** [st.stop()]: ends the run of the page. *)
Definition stop {A} : M A :=
  fun w => (Stopped, {| files := files w; cursor := cursor w;
                        log := EvStop :: log w |}).

(** [st.radio(label, options)]: the label of the selected option. *)
Definition radio (E : Env) (label : str) (options : list str) : M str :=
  emit (EvRadio label options) ;;
  ret (media_label E).

Definition file_uploader (E : Env) (label : str) (types : list str)
    (help : str) : M (option UploadedFile.t) :=
  emit (EvFileUploader label types help) ;;
  ret (uploaded E).

(** The masked prompt for the key ([type="password"]). *)
Definition password_input (E : Env) (label : str) : M str :=
  emit (EvTextInput label true) ;;
  ret (key_typed E).

(** The plain text box for the question. *)
Definition text_input (E : Env) (label : str) (help : str) : M str :=
  emit (EvTextInput label false) ;;
  ret (question E).

End st.

(** The uploaded stream ([io.BytesIO] methods). *)
Module stream.

Definition closed_error : exn :=
  Exception "ValueError" "I/O operation on closed file.".

Definition seek (f : UploadedFile.t) (pos : nat) : M unit :=
  emit (EvSeek pos) ;;
  if UploadedFile.closed f then raise closed_error
  else fun w => (Return tt, {| files := files w; cursor := pos;
                               log := log w |}).

(** [read()] returns what lies after the read position and moves the
    position to the end. *)
Definition read (f : UploadedFile.t) : M bytes :=
  emit EvRead ;;
  if UploadedFile.closed f then raise closed_error
  else fun w =>
         (Return (drop (cursor w) (UploadedFile.data f)),
          {| files := files w;
             cursor := Nat.max (cursor w) (length (UploadedFile.data f));
             log := log w |}).

End stream.

(** [tempfile.NamedTemporaryFile(delete=False, suffix=...)] creates an
    empty file and gives its name; writing stores the content; leaving
    the [with] block closes the file and keeps it on disk. *)
Module tempfile.

Definition NamedTemporaryFile (E : Env) : M str :=
  fun w =>
    let path := tmp_name E (files w) in
    (Return path, {| files := <[path := []]> (files w); cursor := cursor w;
                     log := EvTempFile path :: log w |}).

Definition write (path : str) (content : bytes) : M unit :=
  fun w => (Return tt, {| files := <[path := content]> (files w);
                          cursor := cursor w; log := log w |}).

End tempfile.

Module os.

(** [os.unlink(path)]. *)
Definition unlink (path : str) : M unit :=
  emit (EvUnlink path) ;;
  fun w =>
    match files w !! path with
    | Some _ => (Return tt, {| files := delete path (files w);
                               cursor := cursor w; log := log w |})
    | None => (Raise (Exception "FileNotFoundError" path), w)
    end.

End os.

(** OpenCV. A capture object holds the decoded file and a position; a
    capture that could not be opened reports zero frames and reads
    nothing. *)
Module cv2.

Record VideoCapture_t := { video : Video; position : Z }.

Definition unopened : Video :=
  {| opened := false; frame_count := 0; frame_at := fun _ => None |}.

Definition VideoCapture (E : Env) (path : str) : M VideoCapture_t :=
  emit (EvCapture path) ;;
  fun w =>
    (Return {| video := match files w !! path with
                        | Some content => demux E content
                        | None => unopened
                        end;
               position := 0 |}, w).

(** [int(cap.get(cv2.CAP_PROP_FRAME_COUNT))]. *)
Definition get_frame_count (cap : VideoCapture_t) : M Z :=
  emit EvCapGet ;;
  ret (if opened (video cap) then frame_count (video cap) else 0%Z).

(** [cap.set(cv2.CAP_PROP_POS_FRAMES, pos)]. *)
Definition set_pos_frames (cap : VideoCapture_t) (pos : Z)
  : M VideoCapture_t :=
  emit (EvCapSet pos) ;;
  ret (if opened (video cap)
       then {| video := video cap; position := pos |}
       else cap).

(** [cap.read()]: [(True, frame)] is [Some frame], [(False, None)] is
    [None].  The script reads once and then only releases the capture, so
    the position after the read is not kept. *)
Definition read (cap : VideoCapture_t) : M (option Frame) :=
  emit (EvCapRead (position cap)) ;;
  ret (if opened (video cap) then frame_at (video cap) (position cap)
       else None).

Definition release (cap : VideoCapture_t) : M unit := emit EvCapRelease.

(** [cv2.imencode('.jpg', frame)], the encoded buffer. *)
Definition imencode (E : Env) (ext : str) (frame : Frame) : M bytes :=
  emit (EvImencode ext) ;;
  lift (jpeg E frame).

(** [cv2.cvtColor(frame, cv2.COLOR_BGR2RGB)]. *)
Definition cvtColor_BGR2RGB (frame : Frame) : Frame :=
  map (map (fun '(b, g, r) => (r, g, b))) frame.

End cv2.

(** [PIL.Image.fromarray]. *)
Definition fromarray (a : Frame) : Image := {| mode := "RGB"; pixels := a |}.

(** [client.chat.completions.create(...)]. *)
Definition create (E : Env) (client : Groq) (req : request) : M response :=
  emit (EvCreate (api_key client) req) ;;
  lift (endpoint E (api_key client) req).

(** [l[0]]. *)
Definition first {A} (l : list A) : M A :=
  match l with
  | x :: _ => ret x
  | [] => raise (Exception "IndexError" "list index out of range")
  end.

(** [s.lower()] on ASCII letters. *)
Definition lower_ascii (c : ascii) : ascii :=
  let n := nat_of_ascii c in
  if (65 <=? n)%nat && (n <=? 90)%nat then ascii_of_nat (n + 32) else c.

Fixpoint lower (s : str) : str :=
  match s with
  | EmptyString => EmptyString
  | String c s' => String (lower_ascii c) (lower s')
  end.

(** [x > y] on the quotients the script compares. *)
Definition Qgtb (x y : Q) : bool := negb (Qle_bool x y).

(** ** app.py *)

Definition setup_page : M unit :=
  st.set_page_config "Media Analysis Bot" "🎥" "wide" ;;
  st.title "Media Analysis Bot" ;;
  st.write "Upload an image or video and ask questions about it!".

Definition load_api_key (E : Env) : M str :=
  api_key <- st.secrets_getitem E "GROQ_API_KEY" ;;
  if negb (truthy_str api_key) then
    api_key <- st.password_input E "Enter your Groq API key:" ;;
    if negb (truthy_str api_key) then
      st.warning "Please enter your Groq API key to continue." ;;
      st.stop
    else ret api_key
  else ret api_key.

Definition encode_image (file : UploadedFile.t) : M (option str) :=
  try_except
    ((* Reset file pointer to beginning *)
     stream.seek file 0 ;;
     (* Read file content *)
     file_content <- stream.read file ;;
     (* Encode to base64 *)
     base64_encoded <- lift (utf8.decode (base64.b64encode file_content)) ;;
     ret (Some base64_encoded))
    (fun e =>
       st.error ("Error encoding file: " +:+ exn_str e) ;;
       ret None).

Definition process_video_frame (E : Env) (video_file : UploadedFile.t)
  : M (option str * option Image) :=
  try_except
    (video_path <-
       (tmp_file <- tempfile.NamedTemporaryFile E ;;
        content <- stream.read video_file ;;
        tempfile.write tmp_file content ;;
        ret tmp_file) ;;
     cap <- cv2.VideoCapture E video_path ;;
     total_frames <- cv2.get_frame_count cap ;;
     (* Get middle frame *)
     let middle_frame := (total_frames / 2)%Z in
     cap <- cv2.set_pos_frames cap middle_frame ;;
     frame <- cv2.read cap ;;
     match frame with
     | Some frame =>
         (* Convert frame to JPEG *)
         buffer <- cv2.imencode E ".jpg" frame ;;
         (* Convert to base64 *)
         base64_encoded <- lift (utf8.decode (base64.b64encode buffer)) ;;
         (* Convert BGR to RGB for display *)
         let frame_rgb := cv2.cvtColor_BGR2RGB frame in
         let display_image := fromarray frame_rgb in
         cv2.release cap ;;
         os.unlink video_path ;;
         ret (Some base64_encoded, Some display_image)
     | None =>
         cv2.release cap ;;
         os.unlink video_path ;;
         ret (None, None)
     end)
    (fun e =>
       st.error ("Error processing video: " +:+ exn_str e) ;;
       ret (None, None)).

Definition analyze_with_groq (E : Env) (client : Groq)
    (base64_image : option str) (query : str) : M (option str) :=
  try_except
    (let messages :=
       PList [
         PDict [
           ("role", PStr "user");
           ("content", PList [
              PDict [
                ("type", PStr "text");
                ("text", PStr ("Please analyze this image and answer: "
                               +:+ query))
              ];
              PDict [
                ("type", PStr "image_url");
                ("image_url", PDict [
                   ("url", PStr ("data:image/jpeg;base64,"
                                 +:+ format_value base64_image))
                 ])
              ]
            ])
         ]
       ] in
     st.spinner "Analyzing with Groq..." ;;
     response <- create E client
       {| messages := messages;
          model := "llama-3.2-11b-vision-preview";
          temperature := 7 # 10;
          max_tokens := 1000 |} ;;
     choice <- first (choices response) ;;
     ret (content (message choice)))
    (fun e =>
       st.error ("Analysis error: " +:+ exn_str e) ;;
       ret None).

(** The size of the upload in megabytes.  The script divides two integers
    into a float; the divisor is a power of two, so the float is the exact
    quotient whenever it can be near [10], and the comparison with [10]
    is the comparison of the exact quotients. *)
Definition file_size (uploaded_file : UploadedFile.t) : Q :=
  inject_Z (UploadedFile.size uploaded_file) / inject_Z (1024 * 1024).

(** The tips section and the footer, which end the page. *)
Definition tips_and_footer : M unit :=
  st.expander "Tips for better results" ;;
  st.write "
        - Use images smaller than 5MB for best results
        - For images: Upload clear, well-lit images in JPG/PNG format
        - For videos: The middle frame will be analyzed, so ensure key content is visible
        - Ask specific, focused questions about the content
        - If you get an error, try reducing the file size or simplifying your query
        " ;;
  (* Footer *)
  st.write "---" ;;
  st.write "Thank you for using the Media Analysis Bot!".

(** Lines 149 to 156: the payload of the upload, by media type. *)
Definition prepare_media (E : Env) (media_type : str)
    (uploaded_file : UploadedFile.t) : M (option str) :=
  if (media_type =? "Image")%string then
    st.image_file E uploaded_file "Uploaded Image" ;;
    encode_image uploaded_file
  else
    st.write "Processing video frame..." ;;
    r <- process_video_frame E uploaded_file ;;
    let '(base64_image, display_frame) := r in
    (if truthy_opt (fun _ : Image => true) display_frame then
       st.image "Analyzed Video Frame (Middle Frame)"
     else ret tt) ;;
    ret base64_image.

(** Lines 147 to 170: the [try] block that prepares the payload and asks
    the model. *)
Definition process_and_analyze (E : Env) (client : Groq)
    (media_type : str) (uploaded_file : UploadedFile.t) (query : str)
  : M unit :=
  try_except
    ((* Process media based on type *)
     base64_image <- prepare_media E media_type uploaded_file ;;
     if truthy_opt truthy_str base64_image then
       (* Analyze with Groq *)
       analysis <- analyze_with_groq E client base64_image query ;;
       match analysis with
       | Some text =>
           if truthy_str text then
             st.success "Analysis Complete!" ;;
             st.write "### Analysis Results" ;;
             st.write text
           else ret tt
       | None => ret tt
       end
     else
       st.error "Failed to process media file.")
    (fun e => st.error ("An error occurred: " +:+ exn_str e)).

Definition main (E : Env) : M unit :=
  setup_page ;;
  (* Get API key *)
  api_key <- load_api_key E ;;
  (* Initialize Groq client *)
  let client := {| api_key := api_key |} in
  (* File upload section *)
  st.write "### Upload Media" ;;
  media_type <- st.radio E "Select media type:" ["Image"; "Video"] ;;
  let file_types :=
    if (media_type =? "Image")%string then ["jpg"; "jpeg"; "png"]
    else ["mp4"] in
  uploaded_file <- st.file_uploader E
    ("Choose " +:+ lower media_type +:+ " file") file_types
    "Maximum recommended file size: 5MB" ;;
  (* Query input *)
  query <- st.text_input E "What would you like to know about the media?"
    "Ask a specific question about the content" ;;
  match uploaded_file with
  | Some uploaded_file =>
      if truthy_str query then
        (* Check file size *)
        if Qgtb (file_size uploaded_file) 10 then
          st.error "File is too large! Please upload a file smaller than 10MB."
          (* return *)
        else
          process_and_analyze E client media_type uploaded_file query ;;
          tips_and_footer
      else tips_and_footer
  | None => tips_and_footer
  end.

(** ** Notions used to state the properties *)

(** What [video_file.read()] yields in world [w]. *)
Definition video_content (video_file : UploadedFile.t) (w : World) : bytes :=
  drop (cursor w) (UploadedFile.data video_file).

(** The frame count a capture of [v] reports. *)
Definition reported_frames (v : Video) : Z :=
  if opened v then frame_count v else 0%Z.

(** What a capture of [v] reads at position [pos]. *)
Definition frame_read (v : Video) (pos : Z) : option Frame :=
  if opened v then frame_at v pos else None.

(** The path of the temporary file a call made in world [w] creates. *)
Definition tmp_path (E : Env) (w : World) : str := tmp_name E (files w).

(** The events of a list that are capture seeks or reads. *)
Definition is_seek_or_read (e : event) : bool :=
  match e with
  | EvCapSet _ | EvCapRead _ => true
  | _ => false
  end.

(** The events that belong to the image encoder or the frame extractor. *)
Definition is_media_step (e : event) : bool :=
  match e with
  | EvSeek _ | EvRead | EvTempFile _ | EvUnlink _ | EvCapture _ | EvCapGet
  | EvCapSet _ | EvCapRead _ | EvCapRelease | EvImencode _ => true
  | _ => false
  end.

(** The requests to the remote model. *)
Definition is_request (e : event) : bool :=
  match e with
  | EvCreate _ _ => true
  | _ => false
  end.

(** World [w] after the calls [evs] (latest first) have been logged. *)
Definition record (evs : list event) (w : World) : World :=
  {| files := files w; cursor := cursor w; log := evs ++ log w |}.

(** A key can be obtained: the secret store has an entry for it, and that
    entry or the prompt is not empty. *)
Definition has_key (E : Env) : bool :=
  match secrets E !! "GROQ_API_KEY" with
  | Some k => truthy_str k || truthy_str (key_typed E)
  | None => false
  end.

(** The key then obtained, and the prompt shown to obtain it (if any). *)
Definition acquired_key (E : Env) : str :=
  match secrets E !! "GROQ_API_KEY" with
  | Some k => if truthy_str k then k else key_typed E
  | None => ""
  end.

Definition key_prompt_events (E : Env) : list event :=
  match secrets E !! "GROQ_API_KEY" with
  | Some k =>
      if truthy_str k then []
      else [EvTextInput "Enter your Groq API key:" true]
  | None => []
  end.

(** The calls of [setup_page], latest first. *)
Definition setup_events : list event :=
  [EvWrite "Upload an image or video and ask questions about it!";
   EvTitle "Media Analysis Bot";
   EvPageConfig "Media Analysis Bot" "🎥" "wide"].

(** The calls of the page up to and including the question box. *)
Definition page_events (E : Env) : list event :=
  [EvTextInput "What would you like to know about the media?" false;
   EvFileUploader ("Choose " +:+ lower (media_label E) +:+ " file")
     (if (media_label E =? "Image")%string then ["jpg"; "jpeg"; "png"]
      else ["mp4"])
     "Maximum recommended file size: 5MB";
   EvRadio "Select media type:" ["Image"; "Video"];
   EvWrite "### Upload Media"]
  ++ key_prompt_events E ++ setup_events.

(** The decoder yields frames only at positions below the count it
    reports. *)
Definition frames_within_count (v : Video) : Prop :=
  forall pos frame,
    frame_at v pos = Some frame -> (0 <= pos < frame_count v)%Z.

(** Every call a computation logs satisfies [P], and it only adds to the
    log. *)
Definition emits (P : event -> Prop) {A} (m : M A) : Prop :=
  forall w, exists evs, log (snd (m w)) = evs ++ log w /\ Forall P evs.

(** The first call of the media step in a run of the page from world [w]:
    the image encoder's seek, or the frame extractor's temporary file. *)
Definition first_media_event (E : Env) (w : World) : event :=
  match media_picked E with
  | Image_choice => EvSeek 0
  | Video_choice => EvTempFile (tmp_path E w)
  end.

(** The first call of the processing block. *)
Definition block_entry (E : Env) : event :=
  match media_picked E with
  | Image_choice => EvImage "Uploaded Image"
  | Video_choice => EvWrite "Processing video frame..."
  end.

(** The page can show the upload (asked of image files only). *)
Definition shown (E : Env) (uploaded_file : UploadedFile.t) : bool :=
  match media_picked E with
  | Image_choice =>
      match render E (UploadedFile.data uploaded_file) with
      | inr _ => true
      | inl _ => false
      end
  | Video_choice => true
  end.

(** The message that rejects an upload at the size gate. *)
Definition too_large_error : event :=
  EvError "File is too large! Please upload a file smaller than 10MB.".

(** A computation never ends with an exception. *)
Definition never_raises {A} (m : M A) : Prop :=
  forall w e, fst (m w) <> Raise e.

(** The calls of the tips section and the footer, latest first. *)
Definition tips_events : list event :=
  [EvWrite "Thank you for using the Media Analysis Bot!";
   EvWrite "---";
   EvWrite "
        - Use images smaller than 5MB for best results
        - For images: Upload clear, well-lit images in JPG/PNG format
        - For videos: The middle frame will be analyzed, so ensure key content is visible
        - Ask specific, focused questions about the content
        - If you get an error, try reducing the file size or simplifying your query
        ";
   EvExpander "Tips for better results"].

(** The run has an upload and a question, and the upload is too large. *)
Definition rejects (E : Env) : bool :=
  match uploaded E with
  | Some uploaded_file =>
      truthy_str (question E) && Qgtb (file_size uploaded_file) 10
  | None => false
  end.

(** The run has an upload and a question. *)
Definition submitted (E : Env) : bool :=
  match uploaded E with
  | Some _ => truthy_str (question E)
  | None => false
  end.

(** A computation never ends with the page's stop signal. *)
Definition never_stops {A} (m : M A) : Prop :=
  forall w, fst (m w) <> Stopped.

(** A computation leaves the disk as it found it. *)
Definition keeps_files {A} (m : M A) : Prop :=
  forall w, files (snd (m w)) = files w.

(** ** Sample inputs *)

Module Sample.

(** An empty disk, an untouched stream, nothing logged yet. *)
Definition w0 : World := {| files := ∅; cursor := 0; log := [] |}.

Definition frame : Frame := [[("010"%byte, "020"%byte, "030"%byte)]].

(** A decoder's view of a file with the given frames, all readable. *)
Definition video_of_frames (frames : list Frame) : Video :=
  {| opened := true;
     frame_count := Z.of_nat (length frames);
     frame_at := fun pos =>
       if (0 <=? pos)%Z then nth_error frames (Z.to_nat pos) else None |}.

Definition clip : UploadedFile.t :=
  {| UploadedFile.name := "clip.mp4";
     UploadedFile.size := 4;
     UploadedFile.data := list_byte_of_string "clip";
     UploadedFile.closed := false |}.

Definition photo : UploadedFile.t :=
  {| UploadedFile.name := "photo.jpg";
     UploadedFile.size := 3;
     UploadedFile.data := list_byte_of_string "Man";
     UploadedFile.closed := false |}.

Definition with_size (f : UploadedFile.t) (n : Z) : UploadedFile.t :=
  {| UploadedFile.name := UploadedFile.name f;
     UploadedFile.size := n;
     UploadedFile.data := UploadedFile.data f;
     UploadedFile.closed := UploadedFile.closed f |}.

Definition tmp : str := "/tmp/tmpk3x9a2vq.mp4".

Definition jpeg_ok (f : Frame) : exn + bytes :=
  inr (list_byte_of_string "JPG").

Definition jpeg_fails (f : Frame) : exn + bytes :=
  inl (Exception "cv2.error" "could not encode the frame").

Definition answer (text : str) (key : str) (req : request)
  : exn + response :=
  inr {| choices := [ {| message := {| content := Some text |} |};
                      {| message := {| content := Some "second" |} |} ] |}.

Definition refuses (key : str) (req : request) : exn + response :=
  inl (Exception "BadRequestError" "invalid image data").

(** The error of a secrets store for a key it does not hold. *)
Definition not_found (key : str) : exn :=
  Exception "StreamlitSecretNotFoundError"
    ("no secret is available for the key " +:+ key).

Definition env (store : gmap string str) (typed : str) (picked : media)
    (upload : option UploadedFile.t) (asked : str) (frames : list Frame)
    (encoder : Frame -> exn + bytes)
    (remote : str -> request -> exn + response) : Env :=
  {| secrets := store;
     secret_error := not_found;
     key_typed := typed;
     media_picked := picked;
     uploaded := upload;
     question := asked;
     render := fun _ => inr tt;
     tmp_name := fun _ => tmp;
     demux := fun _ => video_of_frames frames;
     jpeg := encoder;
     endpoint := remote |}.

Definition store : gmap string str := {[ "GROQ_API_KEY" := "gsk_test" ]}.

(** A one-frame clip whose frame cannot be encoded as JPEG. *)
Definition env_encode_error : Env :=
  env store "" Video_choice (Some clip) "What happens?" [frame]
    jpeg_fails (answer "A car.").

(** A three-frame clip that decodes and encodes. *)
Definition env_video : Env :=
  env store "" Video_choice (Some clip) "What happens?"
    [frame; frame; frame] jpeg_ok (answer "A car.").

(** A clip without frames. *)
Definition env_no_frames : Env :=
  env store "" Video_choice (Some clip) "What happens?" []
    jpeg_ok (answer "A car.").

Definition blank : UploadedFile.t :=
  {| UploadedFile.name := "blank.png";
     UploadedFile.size := 0;
     UploadedFile.data := [];
     UploadedFile.closed := false |}.

(** An empty image file. *)
Definition env_blank : Env :=
  env store "" Image_choice (Some blank) "What color is the car?" []
    jpeg_ok (answer "The car is red.").

(** The photo reported with the given size in bytes. *)
Definition env_sized (n : Z) : Env :=
  env store "" Image_choice (Some (with_size photo n))
    "What color is the car?" [] jpeg_ok (answer "The car is red.").

(** A photo and a question, with the key in the secret store. *)
Definition env_image : Env :=
  env store "" Image_choice (Some photo) "What color is the car?" []
    jpeg_ok (answer "The car is red.").

(** The same page with an endpoint that rejects every request. *)
Definition env_refused : Env :=
  env store "" Image_choice (Some photo) "What color is the car?" []
    jpeg_ok refuses.

(** The same page without an entry for the key in the secret store. *)
Definition env_no_secret : Env :=
  env ∅ "gsk_typed" Image_choice (Some photo) "What color is the car?" []
    jpeg_ok (answer "The car is red.").

(** The page before anything is uploaded or asked. *)
Definition env_idle : Env :=
  env store "" Image_choice None "" [] jpeg_ok (answer "The car is red.").

(** An empty entry for the key and nothing typed into the prompt. *)
Definition env_no_key : Env :=
  env {[ "GROQ_API_KEY" := "" ]} "" Image_choice (Some photo)
    "What color is the car?" [] jpeg_ok (answer "The car is red.").

(** A decoder that reports no frames for a file it can read one frame
    of. *)
Definition miscounted : Video :=
  {| opened := true;
     frame_count := 0;
     frame_at := fun pos => if (pos =? 0)%Z then Some frame else None |}.

Definition env_miscounted : Env :=
  {| secrets := store;
     secret_error := not_found;
     key_typed := "";
     media_picked := Video_choice;
     uploaded := Some clip;
     question := "What happens?";
     render := fun _ => inr tt;
     tmp_name := fun _ => tmp;
     demux := fun _ => miscounted;
     jpeg := jpeg_ok;
     endpoint := answer "A car." |}.

(** A disk that already holds a file. *)
Definition kept : str := "/tmp/notes.txt".

Definition w1 : World :=
  {| files := {[ kept := list_byte_of_string "keep" ]};
     cursor := 0;
     log := [] |}.

End Sample.

(** * Properties *)

(** ** Base64 *)

Section Base64.
Import base64.

Local Open Scope N_scope.

Lemma lor_shiftl_add (x y k : N) :
  y < 2 ^ k -> N.lor (N.shiftl x k) y = x * 2 ^ k + y.
Proof.
  intros H. rewrite N.shiftl_mul_pow2.
  assert (Hd : N.land (x * 2 ^ k) y = 0).
  { apply N.bits_inj_0. intros n. rewrite N.land_spec.
    destruct (N.lt_ge_cases n k) as [Hn|Hn].
    - rewrite N.mul_pow2_bits_low by exact Hn. reflexivity.
    - destruct (N.eq_dec y 0) as [->|Hy].
      + rewrite N.bits_0. apply andb_false_r.
      + rewrite (N.bits_above_log2 y n), andb_false_r; [reflexivity|].
        apply N.log2_lt_pow2; [lia|].
        eapply N.lt_le_trans; [exact H|].
        apply N.pow_le_mono_r; lia. }
  rewrite <- N.lxor_lor, <- N.add_nocarry_lxor by exact Hd. reflexivity.
Qed.

Local Ltac Zify.zify_post_hook ::= Z.to_euclidean_division_equations.

Local Ltac to_arith :=
  change 3 with (N.ones 2); change 15 with (N.ones 4);
  change 63 with (N.ones 6);
  rewrite ?N.land_ones, ?N.shiftr_div_pow2;
  rewrite ?lor_shiftl_add by (cbn; lia);
  cbn [N.pow Pos.pow Pos.iter Pos.mul].

Lemma sextets_arith (a b c : N) :
  a < 256 -> b < 256 -> c < 256 ->
  sextets a b c =
    (a / 4, (a mod 4) * 16 + b / 16, (b mod 16) * 4 + c / 64, c mod 64).
Proof.
  intros Ha Hb Hc. unfold sextets. to_arith. reflexivity.
Qed.

Lemma octets_arith (s1 s2 s3 s4 : N) :
  s2 < 64 -> s3 < 64 -> s4 < 64 ->
  octets s1 s2 s3 s4 =
    (s1 * 4 + s2 / 16, (s2 mod 16) * 16 + s3 / 4, (s3 mod 4) * 64 + s4).
Proof.
  intros H2 H3 H4. unfold octets. to_arith. reflexivity.
Qed.

Lemma to_N_lt (b : byte) : Byte.to_N b < 256.
Proof. pose proof (Byte.to_N_bounded b). lia. Qed.

Lemma byte_of_to_N (b : byte) : byte_of (Byte.to_N b) = b.
Proof. unfold byte_of. rewrite Byte.of_to_N. reflexivity. Qed.

(** The group of three bytes is recovered from its four 6-bit values. *)
Lemma octets_sextets (a b c : N) :
  a < 256 -> b < 256 -> c < 256 ->
  let '(s1, s2, s3, s4) := sextets a b c in
  s1 < 64 /\ s2 < 64 /\ s3 < 64 /\ s4 < 64 /\
  octets s1 s2 s3 s4 = (a, b, c) /\
  fst (fst (octets s1 s2 0 0)) = a /\
  fst (octets s1 s2 s3 0) = (a, b).
Proof.
  intros Ha Hb Hc. rewrite sextets_arith by assumption.
  assert (H1 : a / 4 < 64) by lia.
  assert (H2 : a mod 4 * 16 + b / 16 < 64) by lia.
  assert (H3 : b mod 16 * 4 + c / 64 < 64) by lia.
  assert (H4 : c mod 64 < 64) by lia.
  rewrite !octets_arith by (assumption || lia). cbn [fst].
  repeat split; try assumption; try (f_equal; [f_equal|]); lia.
Qed.

Lemma sextet_cases (n : N) : n < 64 -> In n (map N.of_nat (seq 0 64)).
Proof.
  intros H. rewrite <- (N2Nat.id n). apply in_map, in_seq. lia.
Qed.

Lemma index_of_char_of (n : N) :
  n < 64 -> index_of (char_of n) = Some n /\ Byte.eqb (char_of n) pad = false.
Proof.
  intros H. apply sextet_cases in H. revert n H. apply List.Forall_forall.
  repeat constructor.
Qed.

(** Every character of the alphabet, and the padding, is ASCII. *)
Lemma char_of_ascii (n : N) : utf8.between 0 127 (char_of n) = true.
Proof.
  unfold char_of.
  destruct (nth_in_or_default (N.to_nat n) alphabet pad) as [H| ->];
    [|reflexivity].
  revert H. generalize (nth (N.to_nat n) alphabet pad). apply List.Forall_forall.
  repeat constructor.
Qed.

Lemma list_ind3 {A} (P : list A -> Prop) :
  P [] -> (forall a, P [a]) -> (forall a b, P [a; b]) ->
  (forall a b c l, P l -> P (a :: b :: c :: l)) ->
  forall l, P l.
Proof.
  intros H0 H1 H2 H3 l.
  assert (H : P l /\ (forall a, P (a :: l)) /\ (forall a b, P (a :: b :: l))).
  { induction l as [|x l (IH0 & IH1 & IH2)]; repeat split; auto. }
  apply H.
Qed.

Lemma decode_group_full (last : bool) (a b c : byte) :
  let '(s1, s2, s3, s4) :=
    sextets (Byte.to_N a) (Byte.to_N b) (Byte.to_N c) in
  decode_group last (char_of s1) (char_of s2) (char_of s3) (char_of s4)
  = Some [a; b; c].
Proof.
  pose proof (octets_sextets _ _ _ (to_N_lt a) (to_N_lt b) (to_N_lt c)) as H.
  destruct (sextets _ _ _) as [[[s1 s2] s3] s4].
  destruct H as (H1 & H2 & H3 & H4 & Ho & _).
  unfold decode_group.
  destruct (index_of_char_of _ H1) as [-> _].
  destruct (index_of_char_of _ H2) as [-> _].
  destruct (index_of_char_of _ H3) as [-> ->].
  destruct (index_of_char_of _ H4) as [-> ->].
  rewrite !andb_false_r, Ho, !byte_of_to_N. reflexivity.
Qed.

Lemma decode_group_one (a : byte) :
  let '(s1, s2, _, _) := sextets (Byte.to_N a) 0 0 in
  decode_group true (char_of s1) (char_of s2) pad pad = Some [a].
Proof.
  pose proof (octets_sextets (Byte.to_N a) 0 0 (to_N_lt a)) as H.
  destruct (sextets _ _ _) as [[[s1 s2] s3] s4].
  destruct H as (H1 & H2 & _ & _ & _ & Ho & _); [reflexivity..|].
  unfold decode_group.
  destruct (index_of_char_of _ H1) as [-> _].
  destruct (index_of_char_of _ H2) as [-> _].
  cbn [andb Byte.eqb pad]. 
  destruct (octets s1 s2 0 0) as [[x y] z]. cbn in Ho. subst x.
  rewrite byte_of_to_N. reflexivity.
Qed.

Lemma decode_group_two (a b : byte) :
  let '(s1, s2, s3, _) := sextets (Byte.to_N a) (Byte.to_N b) 0 in
  decode_group true (char_of s1) (char_of s2) (char_of s3) pad = Some [a; b].
Proof.
  pose proof (octets_sextets (Byte.to_N a) (Byte.to_N b) 0
                (to_N_lt a) (to_N_lt b)) as H.
  destruct (sextets _ _ _) as [[[s1 s2] s3] s4].
  destruct H as (H1 & H2 & H3 & _ & _ & _ & Ho); [reflexivity|].
  unfold decode_group.
  destruct (index_of_char_of _ H1) as [-> _].
  destruct (index_of_char_of _ H2) as [-> _].
  destruct (index_of_char_of _ H3) as [-> ->].
  cbn [andb Byte.eqb pad].
  destruct (octets s1 s2 s3 0) as [[x y] z]. cbn in Ho.
  injection Ho as -> ->. rewrite !byte_of_to_N. reflexivity.
Qed.

(** Strict decoding inverts the encoder on every byte string. *)
Lemma decode_b64encode (bs : bytes) : decode_bytes (b64encode bs) = Some bs.
Proof.
  induction bs as [|a|a b|a b c rest IH] using list_ind3.
  - reflexivity.
  - pose proof (decode_group_one a) as H. cbn [b64encode].
    destruct (sextets _ _ _) as [[[s1 s2] s3] s4].
    cbn [decode_bytes is_nil]. rewrite H. reflexivity.
  - pose proof (decode_group_two a b) as H. cbn [b64encode].
    destruct (sextets _ _ _) as [[[s1 s2] s3] s4].
    cbn [decode_bytes is_nil]. rewrite H. reflexivity.
  - pose proof (decode_group_full (is_nil (b64encode rest)) a b c) as H.
    cbn [b64encode].
    destruct (sextets _ _ _) as [[[s1 s2] s3] s4].
    cbn [decode_bytes]. rewrite H, IH. reflexivity.
Qed.

Lemma b64encode_ascii (bs : bytes) :
  Forall (fun c => utf8.between 0 127 c = true) (b64encode bs).
Proof.
  induction bs as [|a|a b|a b c rest IH] using list_ind3; cbn [b64encode];
    try destruct (sextets _ _ _) as [[[s1 s2] s3] s4];
    repeat (apply Forall_cons; split);
    try apply char_of_ascii; try reflexivity; try apply Forall_nil_2; auto.
Qed.

Lemma well_formed_ascii (bs : bytes) :
  Forall (fun c => utf8.between 0 127 c = true) bs ->
  forall fuel, (length bs <= fuel)%nat -> utf8.well_formed fuel bs = true.
Proof.
  induction 1 as [|b bs Hb _ IH]; intros fuel Hf.
  - destruct fuel; reflexivity.
  - destruct fuel as [|fuel]; [cbn in Hf; lia|].
    cbn [utf8.well_formed]. rewrite Hb. apply IH. cbn in Hf. lia.
Qed.

(** The encoder's output is ASCII, so decoding it as UTF-8 cannot fail and
    keeps every character. *)
Lemma decode_utf8_b64encode (bs : bytes) :
  utf8.decode (b64encode bs) = inr (string_of_list_byte (b64encode bs)).
Proof.
  unfold utf8.decode.
  rewrite well_formed_ascii; [reflexivity|apply b64encode_ascii|lia].
Qed.

Lemma b64decode_b64encode (bs : bytes) :
  b64decode (string_of_list_byte (b64encode bs)) = Some bs.
Proof.
  unfold b64decode.
  rewrite list_byte_of_string_of_list_byte. apply decode_b64encode.
Qed.

End Base64.

(** ** The image encoder *)

(** On an open stream the encoder returns the base64 text of the whole
    content, wherever the read position was. *)
Lemma encode_image_open (file : UploadedFile.t) (w : World) :
  UploadedFile.closed file = false ->
  encode_image file w =
    (Return (Some (string_of_list_byte
                     (base64.b64encode (UploadedFile.data file)))),
     {| files := files w;
        cursor := length (UploadedFile.data file);
        log := EvRead :: EvSeek 0 :: log w |}).
Proof.
  intros Hopen.
  unfold encode_image, try_except, bind, stream.seek, stream.read, emit.
  rewrite Hopen. cbn. rewrite decode_utf8_b64encode. reflexivity.
Qed.

(** On a closed stream the error is reported and there is no payload. *)
Lemma encode_image_closed (file : UploadedFile.t) (w : World) :
  UploadedFile.closed file = true ->
  encode_image file w =
    (Return None,
     {| files := files w; cursor := cursor w;
        log := EvError "Error encoding file: I/O operation on closed file."
               :: EvSeek 0 :: log w |}).
Proof.
  intros Hclosed.
  unfold encode_image, try_except, bind, stream.seek, emit.
  rewrite Hclosed. reflexivity.
Qed.

(** C3. For every image byte buffer (an open upload stream, whatever its
    read position), encode_image returns a payload, and base64-decoding
    that payload gives back exactly the bytes of the buffer. *)
Theorem encode_image_roundtrip (file : UploadedFile.t) (w : World) :
  UploadedFile.closed file = false ->
  exists payload w',
    encode_image file w = (Return (Some payload), w') /\
    payload = string_of_list_byte
                (base64.b64encode (UploadedFile.data file)) /\
    base64.b64decode payload = Some (UploadedFile.data file).
Proof.
  intros Hopen. eexists _, _. split; [|split].
  - apply encode_image_open, Hopen.
  - reflexivity.
  - apply b64decode_b64encode.
Qed.

(** ** The frame extractor *)

Section FrameExtractor.

Variables (E : Env) (video_file : UploadedFile.t) (w : World).

Let path := tmp_path E w.
Let content := video_content video_file w.
Let v := demux E content.
Let middle := (reported_frames v / 2)%Z.
Let cursor' := Nat.max (cursor w) (length (UploadedFile.data video_file)).

Local Ltac run_extractor Hopen :=
  unfold process_video_frame, try_except, bind, tempfile.NamedTemporaryFile,
    stream.read, tempfile.write, cv2.VideoCapture, cv2.get_frame_count,
    cv2.set_pos_frames, cv2.read, cv2.release, cv2.imencode, os.unlink,
    st.error, emit, ret;
  rewrite Hopen; cbn; rewrite !lookup_insert_eq; cbn;
  unfold middle, v, content, path, cursor', frame_read, reported_frames,
    video_content, tmp_path in *.

(** No frame at the middle position: the capture is released, the
    temporary file is unlinked, and both results are absent. *)
Lemma process_video_frame_no_frame :
  UploadedFile.closed video_file = false ->
  frame_read v middle = None ->
  process_video_frame E video_file w =
    (Return (None, None),
     {| files := delete path (files w);
        cursor := cursor';
        log := EvUnlink path :: EvCapRelease :: EvCapRead middle
               :: EvCapSet middle :: EvCapGet :: EvCapture path
               :: EvRead :: EvTempFile path :: log w |}).
Proof.
  intros Hopen Hframe. run_extractor Hopen.
  destruct (opened (demux E _)) eqn:Ho; cbn; rewrite ?Ho, ?Hframe; cbn;
    rewrite ?lookup_insert_eq, ?insert_insert_eq, ?delete_insert_eq;
    reflexivity.
Qed.

(** A frame at the middle position whose JPEG encoding raises: the error
    is reported and both results are absent; the handler neither releases
    the capture nor unlinks the temporary file, which stays on disk with
    the uploaded content. *)
Lemma process_video_frame_encode_error (frame : Frame) (e : exn) :
  UploadedFile.closed video_file = false ->
  frame_read v middle = Some frame ->
  jpeg E frame = inl e ->
  process_video_frame E video_file w =
    (Return (None, None),
     {| files := <[path := content]> (files w);
        cursor := cursor';
        log := EvError ("Error processing video: " +:+ exn_str e)
               :: EvImencode ".jpg" :: EvCapRead middle
               :: EvCapSet middle :: EvCapGet :: EvCapture path
               :: EvRead :: EvTempFile path :: log w |}).
Proof.
  intros Hopen Hframe Hjpeg. run_extractor Hopen.
  destruct (opened (demux E _)) eqn:Ho; [|discriminate].
  cbn; rewrite ?Ho, ?Hframe; cbn. rewrite Hjpeg. cbn.
  rewrite ?insert_insert_eq. reflexivity.
Qed.

(** A frame at the middle position that encodes: the payload is the
    base64 text of the JPEG buffer, the display image is the frame with
    its channels swapped, and the temporary file is unlinked. *)
Lemma process_video_frame_success (frame : Frame) (buffer : bytes) :
  UploadedFile.closed video_file = false ->
  frame_read v middle = Some frame ->
  jpeg E frame = inr buffer ->
  process_video_frame E video_file w =
    (Return (Some (string_of_list_byte (base64.b64encode buffer)),
             Some (fromarray (cv2.cvtColor_BGR2RGB frame))),
     {| files := delete path (files w);
        cursor := cursor';
        log := EvUnlink path :: EvCapRelease
               :: EvImencode ".jpg" :: EvCapRead middle
               :: EvCapSet middle :: EvCapGet :: EvCapture path
               :: EvRead :: EvTempFile path :: log w |}).
Proof.
  intros Hopen Hframe Hjpeg. run_extractor Hopen.
  destruct (opened (demux E _)) eqn:Ho; [|discriminate].
  cbn; rewrite ?Ho, ?Hframe; cbn. rewrite Hjpeg. cbn.
  rewrite decode_utf8_b64encode. cbn.
  rewrite ?lookup_insert_eq, ?insert_insert_eq, ?delete_insert_eq.
  reflexivity.
Qed.

(** A closed upload stream: reading it raises inside the [with] block,
    after the temporary file has been created. *)
Lemma process_video_frame_closed :
  UploadedFile.closed video_file = true ->
  process_video_frame E video_file w =
    (Return (None, None),
     {| files := <[path := []]> (files w);
        cursor := cursor w;
        log := EvError "Error processing video: I/O operation on closed file."
               :: EvRead :: EvTempFile path :: log w |}).
Proof.
  intros Hclosed.
  unfold process_video_frame, try_except, bind, tempfile.NamedTemporaryFile,
    stream.read, emit.
  rewrite Hclosed. reflexivity.
Qed.

End FrameExtractor.

(** ** Running computations *)

Lemma record_nil (w : World) : record [] w = w.
Proof. destruct w. reflexivity. Qed.

Lemma record_record (evs evs' : list event) (w : World) :
  record evs (record evs' w) = record (evs ++ evs') w.
Proof. unfold record. cbn. rewrite app_assoc. reflexivity. Qed.

Lemma bind_Return {A B} (m : M A) (k : A -> M B) w a w' :
  m w = (Return a, w') -> bind m k w = k a w'.
Proof. intros H. unfold bind. rewrite H. reflexivity. Qed.

Lemma bind_Raise {A B} (m : M A) (k : A -> M B) w e w' :
  m w = (Raise e, w') -> bind m k w = (Raise e, w').
Proof. intros H. unfold bind. rewrite H. reflexivity. Qed.

Lemma bind_Stopped {A B} (m : M A) (k : A -> M B) w w' :
  m w = (Stopped, w') -> bind m k w = (Stopped, w').
Proof. intros H. unfold bind. rewrite H. reflexivity. Qed.

Lemma try_bind_Return {A B} (m : M A) (k : A -> M B) h w a w' :
  m w = (Return a, w') ->
  try_except (bind m k) h w = try_except (k a) h w'.
Proof. intros H. unfold try_except, bind. rewrite H. reflexivity. Qed.

Lemma try_bind_Raise {A B} (m : M A) (k : A -> M B) h w e w' :
  m w = (Raise e, w') -> try_except (bind m k) h w = h e w'.
Proof. intros H. unfold try_except, bind. rewrite H. reflexivity. Qed.

Lemma try_bind_Stopped {A B} (m : M A) (k : A -> M B) h w w' :
  m w = (Stopped, w') -> try_except (bind m k) h w = (Stopped, w').
Proof. intros H. unfold try_except, bind. rewrite H. reflexivity. Qed.

(** ** The API key *)

Lemma load_api_key_missing (E : Env) (w : World) :
  secrets E !! "GROQ_API_KEY" = None ->
  load_api_key E w = (Raise (secret_error E "GROQ_API_KEY"), w).
Proof.
  intros H. unfold load_api_key, bind, st.secrets_getitem. rewrite H.
  reflexivity.
Qed.

Lemma load_api_key_has_key (E : Env) (w : World) :
  has_key E = true ->
  load_api_key E w = (Return (acquired_key E), record (key_prompt_events E) w)
  /\ truthy_str (acquired_key E) = true.
Proof.
  unfold has_key, acquired_key, key_prompt_events, load_api_key, bind,
    st.secrets_getitem, st.password_input, emit, ret.
  destruct (secrets E !! "GROQ_API_KEY") as [k|]; [|discriminate].
  cbn. destruct (truthy_str k) eqn:Hk; cbn.
  - intros _. rewrite record_nil. split; [reflexivity|exact Hk].
  - intros Ht. rewrite Ht. split; reflexivity.
Qed.

Lemma load_api_key_stops (E : Env) (w : World) (k : str) :
  secrets E !! "GROQ_API_KEY" = Some k ->
  truthy_str k = false ->
  truthy_str (key_typed E) = false ->
  load_api_key E w =
    (Stopped,
     record [EvStop; EvWarning "Please enter your Groq API key to continue.";
             EvTextInput "Enter your Groq API key:" true] w).
Proof.
  intros Hs Hk Ht.
  unfold load_api_key, bind, st.secrets_getitem, st.password_input, emit, ret.
  rewrite Hs. cbn. rewrite Hk. cbn. rewrite Ht. reflexivity.
Qed.

Lemma setup_page_run (w : World) :
  setup_page w = (Return tt, record setup_events w).
Proof. reflexivity. Qed.

(** Without an entry for the key in the secret store the page ends with
    the lookup's exception, before the prompt and everything after it. *)
Lemma main_missing_key (E : Env) (w : World) :
  secrets E !! "GROQ_API_KEY" = None ->
  main E w =
    (Raise (secret_error E "GROQ_API_KEY"), record setup_events w).
Proof.
  intros H. unfold main.
  rewrite (bind_Return _ _ _ _ _ (setup_page_run w)).
  apply bind_Raise, load_api_key_missing, H.
Qed.

(** With an empty entry and an empty prompt the page stops after the
    warning; nothing after the prompt runs. *)
Lemma main_stops (E : Env) (w : World) (k : str) :
  secrets E !! "GROQ_API_KEY" = Some k ->
  truthy_str k = false ->
  truthy_str (key_typed E) = false ->
  main E w =
    (Stopped,
     record ([EvStop; EvWarning "Please enter your Groq API key to continue.";
              EvTextInput "Enter your Groq API key:" true] ++ setup_events)
       w).
Proof.
  intros Hs Hk Ht. unfold main.
  rewrite (bind_Return _ _ _ _ _ (setup_page_run w)).
  rewrite (bind_Stopped _ _ _ _ (load_api_key_stops E _ k Hs Hk Ht)).
  rewrite record_record. reflexivity.
Qed.

(** ** The size gate *)

Lemma too_large_iff (uploaded_file : UploadedFile.t) :
  Qgtb (file_size uploaded_file) 10 = true <->
  (10 * 1024 * 1024 < UploadedFile.size uploaded_file)%Z.
Proof.
  unfold Qgtb. rewrite negb_true_iff, <- not_true_iff_false, Qle_bool_iff.
  unfold file_size, Qle, Qdiv, Qmult, Qinv.
  change (1024 * 1024)%Z with 1048576%Z. cbn [Qnum Qden inject_Z]. lia.
Qed.

(** The page up to the gate: with a key, an upload and a question, the run
    reaches the size check with the page's calls logged; a file that is
    too large ends the run with the error, any other file enters the
    processing block, followed by the tips and the footer. *)
Lemma main_gate (E : Env) (w : World) (uploaded_file : UploadedFile.t) :
  has_key E = true ->
  uploaded E = Some uploaded_file ->
  truthy_str (question E) = true ->
  main E w =
    if Qgtb (file_size uploaded_file) 10 then
      (Return tt,
       record (EvError
                 "File is too large! Please upload a file smaller than 10MB."
               :: page_events E) w)
    else
      (process_and_analyze E {| api_key := acquired_key E |} (media_label E)
         uploaded_file (question E) ;;
       tips_and_footer) (record (page_events E) w).
Proof.
  intros Hkey Hup Hq. unfold main.
  rewrite (bind_Return _ _ _ _ _ (setup_page_run w)).
  destruct (load_api_key_has_key E (record setup_events w) Hkey) as [Hl _].
  rewrite (bind_Return _ _ _ _ _ Hl).
  unfold st.write, st.radio, st.file_uploader, st.text_input, st.error.
  unfold bind at 1 2 3 4 5 6 7. cbn [emit ret]. 
  rewrite Hup, Hq.
  unfold page_events, record. cbn [app files cursor log].
  rewrite <- !app_assoc.
  destruct (Qgtb _ _); reflexivity.
Qed.

(** ** The vision query client *)

(** One call of the client: the spinner, then exactly one request built
    from the payload and the question with the fixed parameters; the
    result is the content of the first choice, or [None] after a reported
    error. *)
Lemma analyze_with_groq_run (E : Env) (client : Groq)
    (base64_image : option str) (query : str) (w : World) :
  exists req reported,
    req = {| messages :=
               PList [
                 PDict [
                   ("role", PStr "user");
                   ("content", PList [
                      PDict [
                        ("type", PStr "text");
                        ("text", PStr ("Please analyze this image and answer: "
                                       +:+ query))
                      ];
                      PDict [
                        ("type", PStr "image_url");
                        ("image_url", PDict [
                           ("url", PStr ("data:image/jpeg;base64,"
                                         +:+ format_value base64_image))
                         ])
                      ]
                    ])
                 ]
               ];
             model := "llama-3.2-11b-vision-preview";
             temperature := 7 # 10;
             max_tokens := 1000 |} /\
    analyze_with_groq E client base64_image query w =
      (Return match endpoint E (api_key client) req with
              | inr {| choices := choice :: _ |} => content (message choice)
              | _ => None
              end,
       record (reported ++ [EvCreate (api_key client) req;
                            EvSpinner "Analyzing with Groq..."]) w) /\
    reported =
      match endpoint E (api_key client) req with
      | inr {| choices := _ :: _ |} => []
      | inr {| choices := [] |} =>
          [EvError "Analysis error: list index out of range"]
      | inl e => [EvError ("Analysis error: " +:+ exn_str e)]
      end.
Proof.
  eexists _, _. split; [reflexivity|]. split; [|reflexivity].
  unfold analyze_with_groq, try_except, bind, create, st.spinner, st.error,
    emit, lift. cbn.
  destruct (endpoint E _ _) as [e|[[|choice rest]]]; reflexivity.
Qed.

(** ** What computations log *)

Section Emits.

Variable P : event -> Prop.

Lemma emits_ret {A} (a : A) : emits P (ret a).
Proof. intros w. exists []. split; [reflexivity|constructor]. Qed.

Lemma emits_raise {A} (e : exn) : emits P (@raise A e).
Proof. intros w. exists []. split; [reflexivity|constructor]. Qed.

Lemma emits_lift {A} (r : exn + A) : emits P (lift r).
Proof. destruct r; [apply emits_raise|apply emits_ret]. Qed.

Lemma emits_emit (e : event) : P e -> emits P (emit e).
Proof. intros H w. exists [e]. split; [reflexivity|repeat constructor; exact H]. Qed.

Lemma emits_bind {A B} (m : M A) (k : A -> M B) :
  emits P m -> (forall a, emits P (k a)) -> emits P (bind m k).
Proof.
  intros Hm Hk w. unfold bind. destruct (Hm w) as (evs & Hl & HP).
  destruct (m w) as [[a|e|] w']; cbn in Hl |- *; [|eauto..].
  destruct (Hk a w') as (evs' & Hl' & HP').
  exists (evs' ++ evs). rewrite Hl', Hl, app_assoc. split; [reflexivity|].
  apply Forall_app; split; assumption.
Qed.

Lemma emits_try {A} (body : M A) (handler : exn -> M A) :
  emits P body -> (forall e, emits P (handler e)) ->
  emits P (try_except body handler).
Proof.
  intros Hm Hk w. unfold try_except. destruct (Hm w) as (evs & Hl & HP).
  destruct (body w) as [[a|e|] w']; cbn in Hl |- *; [eauto| |eauto].
  destruct (Hk e w') as (evs' & Hl' & HP').
  exists (evs' ++ evs). rewrite Hl', Hl, app_assoc. split; [reflexivity|].
  apply Forall_app; split; assumption.
Qed.

(** A step that leaves the log alone. *)
Lemma emits_silent {A} (m : M A) :
  (forall w, log (snd (m w)) = log w) -> emits P m.
Proof.
  intros H w. exists []. split; [apply H|constructor].
Qed.

End Emits.

Local Ltac emits_step :=
  match goal with
  | |- forall _, emits _ _ => intros ?
  | |- emits _ (bind _ _) => apply emits_bind; [|intros ?]
  | |- emits _ (try_except _ _) => apply emits_try; [|intros ?]
  | |- emits _ (ret _) => apply emits_ret
  | |- emits _ (raise _) => apply emits_raise
  | |- emits _ (lift _) => apply emits_lift
  | |- emits _ (emit _) => apply emits_emit
  | |- emits _ (if ?b then _ else _) => destruct b
  | |- emits _ (match ?x with _ => _ end) => destruct x
  | |- emits _ (fun _ => _) =>
      apply emits_silent; intros ?; cbn;
      repeat match goal with
             | |- context [match ?x with _ => _ end] => destruct x
             end; reflexivity
  end.

Section EmitsApp.

Variables (P : event -> Prop) (E : Env).

(** The media step logs neither a request nor the size gate's error. *)
Section Media.

Hypothesis HP :
  forall e, e <> too_large_error -> is_request e = false -> P e.

Local Ltac media_event := apply HP; [cbn; discriminate|reflexivity].

Lemma emits_encode_image (file : UploadedFile.t) :
  emits P (encode_image file).
Proof.
  unfold encode_image, stream.seek, stream.read, st.error.
  repeat emits_step; media_event.
Qed.

Lemma emits_process_video_frame (video_file : UploadedFile.t) :
  emits P (process_video_frame E video_file).
Proof.
  unfold process_video_frame, tempfile.NamedTemporaryFile, tempfile.write,
    stream.read, cv2.VideoCapture, cv2.get_frame_count, cv2.set_pos_frames,
    cv2.read, cv2.release, cv2.imencode, os.unlink, st.error.
  apply emits_try; [apply emits_bind; [apply emits_bind|]|];
    [intros w; exists [EvTempFile (tmp_name E (files w))];
     split; [reflexivity|repeat constructor; media_event]|..];
    repeat emits_step; media_event.
Qed.

Lemma emits_prepare_media (media_type : str)
    (uploaded_file : UploadedFile.t) :
  emits P (prepare_media E media_type uploaded_file).
Proof.
  unfold prepare_media, st.image_file, st.image, st.write.
  destruct (media_type =? "Image")%string.
  - apply emits_bind; [repeat emits_step; media_event|intros _].
    apply emits_encode_image.
  - apply emits_bind; [apply emits_emit; media_event|intros _].
    apply emits_bind; [apply emits_process_video_frame|].
    intros [p [d|]]; repeat emits_step; media_event.
Qed.

End Media.

(** Nothing after the gate logs the gate's error. *)
Section AfterGate.

Hypothesis HP : forall e, e <> too_large_error -> P e.

Local Ltac other_event := apply HP; cbn; discriminate.

Lemma emits_analyze_with_groq (client : Groq)
    (base64_image : option str) (query : str) :
  emits P (analyze_with_groq E client base64_image query).
Proof.
  unfold analyze_with_groq, create, first, st.spinner, st.error.
  repeat emits_step; other_event.
Qed.

Lemma emits_tips_and_footer : emits P tips_and_footer.
Proof.
  unfold tips_and_footer, st.expander, st.write.
  repeat emits_step; other_event.
Qed.

Lemma emits_process_and_analyze (client : Groq) (media_type : str)
    (uploaded_file : UploadedFile.t) (query : str) :
  emits P (process_and_analyze E client media_type uploaded_file query).
Proof.
  unfold process_and_analyze, st.success, st.write, st.error.
  apply emits_try; [apply emits_bind|];
    [apply emits_prepare_media; intros e He _; apply HP, He|..];
    repeat emits_step; try other_event.
  apply emits_analyze_with_groq.
Qed.

End AfterGate.

End EmitsApp.

(** ** Claims about the frame extractor *)

(** The temporary file is gone after a run that reads no frame or that
    encodes its frame. *)
Lemma process_video_frame_unlinks (E : Env) (video_file : UploadedFile.t)
    (w : World) :
  UploadedFile.closed video_file = false ->
  let v := demux E (video_content video_file w) in
  let middle := (reported_frames v / 2)%Z in
  (frame_read v middle = None \/
   exists frame buffer,
     frame_read v middle = Some frame /\ jpeg E frame = inr buffer) ->
  files (snd (process_video_frame E video_file w)) !! tmp_path E w = None.
Proof.
  intros Hopen v middle [Hnone|(frame & buffer & Hf & Hj)].
  - rewrite process_video_frame_no_frame by assumption.
    apply lookup_delete_eq.
  - rewrite (process_video_frame_success _ _ _ frame buffer) by assumption.
    apply lookup_delete_eq.
Qed.

(** C1 (the code departs from the claim). On a one-frame clip whose frame
    cannot be encoded as JPEG, process_video_frame reports the error and
    returns (None, None) while the temporary file it created is still on
    disk, holding the uploaded bytes: the exception handler does not
    unlink it. *)
Theorem process_video_frame_leaks_on_exception :
  process_video_frame Sample.env_encode_error Sample.clip Sample.w0 =
    (Return (None, None),
     {| files := {[ Sample.tmp := UploadedFile.data Sample.clip ]};
        cursor := 4;
        log := [EvError "Error processing video: could not encode the frame";
                EvImencode ".jpg"; EvCapRead 0; EvCapSet 0; EvCapGet;
                EvCapture Sample.tmp; EvRead; EvTempFile Sample.tmp] |})
  /\ files (snd (process_video_frame Sample.env_encode_error Sample.clip
                   Sample.w0)) !! Sample.tmp
     = Some (UploadedFile.data Sample.clip).
Proof.
  rewrite (process_video_frame_encode_error _ _ _ Sample.frame
             (Exception "cv2.error" "could not encode the frame"));
    try reflexivity.
  split; [reflexivity|apply lookup_insert_eq].
Qed.

(** C2, as stated: refuted.  The decoder reports 0 frames for a file whose
    frame 0 it can read: the extractor seeks to 0, reads that frame and
    returns its payload and its display image. *)
Lemma process_video_frame_zero_count_payload :
  reported_frames
    (demux Sample.env_miscounted (video_content Sample.clip Sample.w0))
  = 0%Z /\
  process_video_frame Sample.env_miscounted Sample.clip Sample.w0 =
    (Return (Some "SlBH",
             Some (fromarray (cv2.cvtColor_BGR2RGB Sample.frame))),
     {| files := ∅;
        cursor := 4;
        log := [EvUnlink Sample.tmp; EvCapRelease; EvImencode ".jpg";
                EvCapRead 0; EvCapSet 0; EvCapGet; EvCapture Sample.tmp;
                EvRead; EvTempFile Sample.tmp] |}).
Proof.
  split; [reflexivity|].
  rewrite (process_video_frame_success _ _ _ Sample.frame
             (list_byte_of_string "JPG")); reflexivity.
Qed.

(** C2, amended.  On an open upload whose decoder reports N frames, for
    every N: the extractor seeks to position N / 2 (floor) and performs
    exactly one read, at that position; any payload it returns is the
    base64 text of the JPEG encoding of the frame at N / 2; it returns
    (None, None) when the file cannot be opened and whenever the read at
    N / 2 yields no frame, which for N = 0 is the read at position 0 (the
    count itself is not checked); and it always returns. *)
Theorem process_video_frame_middle (E : Env) (video_file : UploadedFile.t)
    (w : World) :
  UploadedFile.closed video_file = false ->
  let v := demux E (video_content video_file w) in
  let N := reported_frames v in
  let run := process_video_frame E video_file w in
  (exists evs,
     log (snd run) = evs ++ log w /\
     List.filter is_seek_or_read evs
       = [EvCapRead (N / 2); EvCapSet (N / 2)]) /\
  (forall payload display,
     fst run = Return (Some payload, display) ->
     exists frame buffer,
       frame_at v (N / 2) = Some frame /\
       jpeg E frame = inr buffer /\
       payload = string_of_list_byte (base64.b64encode buffer)) /\
  (opened v = false -> fst run = Return (None, None)) /\
  (frame_read v (N / 2) = None -> fst run = Return (None, None)) /\
  (N = 0%Z -> frame_at v 0 = None -> fst run = Return (None, None)) /\
  (exists result, fst run = Return result).
Proof.
  intros Hopen v N run. subst run.
  assert (Hzero : N = 0%Z -> frame_at v 0 = None ->
                  frame_read v (N / 2) = None).
  { intros -> H0. unfold frame_read.
    destruct (opened v); [exact H0|reflexivity]. }
  destruct (frame_read v (N / 2)) as [frame|] eqn:Hframe.
  - assert (Hv : opened v = true /\ frame_at v (N / 2) = Some frame).
    { unfold frame_read in Hframe.
      destruct (opened v); [auto|discriminate]. }
    destruct Hv as [Hv Hat].
    destruct (jpeg E frame) as [e|buffer] eqn:Hjpeg.
    + rewrite (process_video_frame_encode_error _ _ _ frame e) by assumption.
      cbn [fst snd log]. repeat split; try reflexivity; eauto.
      * eexists (_ :: _ :: _ :: _ :: _ :: _ :: _ :: [_]).
        split; reflexivity.
      * discriminate.
    + rewrite (process_video_frame_success _ _ _ frame buffer) by assumption.
      cbn [fst snd log]. repeat split; eauto.
      * eexists (_ :: _ :: _ :: _ :: _ :: _ :: _ :: _ :: [_]).
        split; reflexivity.
      * intros payload display [= <- _]. exists frame, buffer. auto.
      * intros Hclosed. congruence.
      * discriminate.
      * intros HN H0. specialize (Hzero HN H0). discriminate.
  - rewrite process_video_frame_no_frame by assumption.
    cbn [fst snd log]. repeat split; try reflexivity; eauto.
    + eexists (_ :: _ :: _ :: _ :: _ :: _ :: _ :: [_]). split; reflexivity.
    + discriminate.
Qed.

(** With a decoder that yields frames only below the count it reports, a
    reported count of 0 gives (None, None). *)
Lemma process_video_frame_no_frames (E : Env) (video_file : UploadedFile.t)
    (w : World) :
  UploadedFile.closed video_file = false ->
  let v := demux E (video_content video_file w) in
  reported_frames v = 0%Z ->
  frames_within_count v ->
  fst (process_video_frame E video_file w) = Return (None, None).
Proof.
  intros Hopen v HN Hwithin.
  rewrite process_video_frame_no_frame; [reflexivity|exact Hopen|].
  fold v. rewrite HN. unfold frame_read, reported_frames in *.
  destruct (opened v); [|reflexivity].
  destruct (frame_at v (0 / 2)) as [frame|] eqn:Hat; [|reflexivity].
  apply Hwithin in Hat. change (0 / 2)%Z with 0%Z in Hat. lia.
Qed.

(** C10. Every call of process_video_frame returns a pair in which the
    payload and the display image are both present or both absent. *)
Theorem process_video_frame_paired (E : Env) (video_file : UploadedFile.t)
    (w : World) :
  exists payload display w',
    process_video_frame E video_file w = (Return (payload, display), w') /\
    (payload = None <-> display = None).
Proof.
  destruct (UploadedFile.closed video_file) eqn:Hclosed.
  - rewrite process_video_frame_closed by assumption.
    eexists _, _, _. split; [reflexivity|]. tauto.
  - destruct (frame_read (demux E (video_content video_file w))
                (reported_frames (demux E (video_content video_file w)) / 2))
      as [frame|] eqn:Hframe.
    + destruct (jpeg E frame) as [e|buffer] eqn:Hjpeg.
      * rewrite (process_video_frame_encode_error _ _ _ frame e)
          by assumption.
        eexists _, _, _. split; [reflexivity|]. tauto.
      * rewrite (process_video_frame_success _ _ _ frame buffer)
          by assumption.
        eexists _, _, _. split; [reflexivity|]. split; discriminate.
    + rewrite process_video_frame_no_frame by assumption.
      eexists _, _, _. split; [reflexivity|]. tauto.
Qed.

(** ** From the media step to the end of the page *)

Lemma encode_image_returns (file : UploadedFile.t) (w : World) :
  exists r w' evs,
    encode_image file w = (Return r, w') /\
    log w' = evs ++ [EvSeek 0] ++ log w /\
    Forall (fun e => is_request e = false) evs.
Proof.
  destruct (UploadedFile.closed file) eqn:Hc.
  - rewrite encode_image_closed by assumption.
    eexists _, _, [_]. split; [reflexivity|]. split; [reflexivity|].
    repeat constructor.
  - rewrite encode_image_open by assumption.
    eexists _, _, [_]. split; [reflexivity|]. split; [reflexivity|].
    repeat constructor.
Qed.

Lemma process_video_frame_returns (E : Env) (video_file : UploadedFile.t)
    (w : World) :
  exists r w' evs,
    process_video_frame E video_file w = (Return r, w') /\
    log w' = evs ++ [EvTempFile (tmp_path E w)] ++ log w /\
    Forall (fun e => is_request e = false) evs.
Proof.
  destruct (UploadedFile.closed video_file) eqn:Hclosed.
  - rewrite process_video_frame_closed by assumption.
    eexists _, _, [_; _]. split; [reflexivity|]. split; [reflexivity|].
    repeat constructor.
  - destruct (frame_read (demux E (video_content video_file w))
                (reported_frames (demux E (video_content video_file w)) / 2))
      as [frame|] eqn:Hframe.
    + destruct (jpeg E frame) as [e|buffer] eqn:Hjpeg.
      * rewrite (process_video_frame_encode_error _ _ _ frame e)
          by assumption.
        eexists _, _, [_; _; _; _; _; _; _].
        split; [reflexivity|]. split; [reflexivity|]. repeat constructor.
      * rewrite (process_video_frame_success _ _ _ frame buffer)
          by assumption.
        eexists _, _, [_; _; _; _; _; _; _; _].
        split; [reflexivity|]. split; [reflexivity|]. repeat constructor.
    + rewrite process_video_frame_no_frame by assumption.
      eexists _, _, [_; _; _; _; _; _; _].
      split; [reflexivity|]. split; [reflexivity|]. repeat constructor.
Qed.

(** The media step starts with the first call of the processing block;
    when the page can show the upload, the encoder's seek or the
    extractor's temporary file follows and the step returns. *)
Lemma prepare_media_runs (E : Env) (uploaded_file : UploadedFile.t)
    (w : World) :
  exists evs,
    log (snd (prepare_media E (media_label E) uploaded_file w))
      = evs ++ log w /\
    In (block_entry E) evs /\
    (shown E uploaded_file = true ->
     In (first_media_event E w) evs /\
     exists r, fst (prepare_media E (media_label E) uploaded_file w)
               = Return r).
Proof.
  unfold prepare_media, media_label, first_media_event, block_entry, shown,
    st.image_file, st.image, st.write.
  destruct (media_picked E); cbn [String.eqb Ascii.eqb Bool.eqb].
  - destruct (render E (UploadedFile.data uploaded_file)) as [e|[]];
      unfold bind, emit, lift, raise, ret; cbv beta iota.
    + exists [EvImage "Uploaded Image"]. split; [reflexivity|].
      split; [left; reflexivity|discriminate].
    + match goal with |- context [encode_image _ ?w1] =>
        destruct (encode_image_returns uploaded_file w1)
          as (r & w' & evs & -> & Hl & Hq) end.
      exists (evs ++ [EvSeek 0; EvImage "Uploaded Image"]).
      cbn [fst snd]. rewrite Hl, <- !app_assoc. split; [reflexivity|]. split.
      * apply in_or_app. right. right. left. reflexivity.
      * intros _. split; [|eauto].
        apply in_or_app. right. left. reflexivity.
  - unfold bind, emit, ret; cbv beta iota.
    match goal with |- context [process_video_frame _ _ ?w1] =>
      destruct (process_video_frame_returns E uploaded_file w1)
        as ([p d] & w' & evs & -> & Hl & Hq) end.
    change (tmp_path E _) with (tmp_path E w) in Hl.
    cbn [log] in Hl.
    destruct d as [d|]; cbn.
    + exists (EvImage "Analyzed Video Frame (Middle Frame)"
              :: evs ++ [EvTempFile (tmp_path E w);
                         EvWrite "Processing video frame..."]).
      rewrite Hl. cbn [app]. rewrite <- !app_assoc.
      split; [reflexivity|]. split.
      * right. apply in_or_app. right. right. left. reflexivity.
      * intros _. split; [|eauto].
        right. apply in_or_app. right. left. reflexivity.
    + exists (evs ++ [EvTempFile (tmp_path E w);
                      EvWrite "Processing video frame..."]).
      rewrite Hl, <- !app_assoc. split; [reflexivity|]. split.
      * apply in_or_app. right. right. left. reflexivity.
      * intros _. split; [|eauto].
        apply in_or_app. right. left. reflexivity.
Qed.

(** After the media step, the rest of the [try] block (or its handler)
    and the end of the page only add to the log, and never the gate's
    error. *)
Lemma process_and_analyze_after_media (E : Env) (client : Groq)
    (media_type : str) (uploaded_file : UploadedFile.t) (query : str)
    (w : World) :
  exists evs,
    log (snd ((process_and_analyze E client media_type uploaded_file query ;;
               tips_and_footer) w))
      = evs ++ log (snd (prepare_media E media_type uploaded_file w)) /\
    Forall (fun e => e <> too_large_error) evs.
Proof.
  unfold process_and_analyze.
  match goal with |- context [try_except (bind _ ?k) ?h] =>
    assert (Hk : forall r, emits (fun e => e <> too_large_error)
                   (bind (try_except (k r) h) (fun _ => tips_and_footer)));
    [|assert (Hh : forall e, emits (fun e => e <> too_large_error)
                     (bind (h e) (fun _ => tips_and_footer)))]
  end.
  { intros r. apply emits_bind; [|intros _; apply emits_tips_and_footer; auto].
    unfold st.success, st.write, st.error.
    repeat emits_step; try (cbn; discriminate).
    apply emits_analyze_with_groq; auto. }
  { intros e. apply emits_bind; [|intros _; apply emits_tips_and_footer; auto].
    unfold st.error. apply emits_emit. cbn. discriminate. }
  unfold bind at 1.
  destruct (prepare_media E media_type uploaded_file w) as [[r|e|] w1] eqn:Hpm.
  - rewrite (try_bind_Return _ _ _ _ _ _ Hpm).
    specialize (Hk r w1). unfold bind at 1 in Hk. exact Hk.
  - rewrite (try_bind_Raise _ _ _ _ _ _ Hpm).
    specialize (Hh e w1). unfold bind at 1 in Hh. exact Hh.
  - rewrite (try_bind_Stopped _ _ _ _ _ Hpm).
    exists []. split; [reflexivity|constructor].
Qed.

Lemma page_events_quiet (E : Env) :
  Forall (fun e => is_request e = false /\ is_media_step e = false)
    (page_events E).
Proof.
  unfold page_events, key_prompt_events, setup_events.
  destruct (secrets E !! "GROQ_API_KEY") as [k|]; [destruct (truthy_str k)|];
    repeat constructor.
Qed.

Lemma filter_quiet (evs : list event) :
  Forall (fun e => is_request e = false) evs ->
  List.filter is_request evs = [].
Proof.
  induction 1 as [|e evs He _ IH]; [reflexivity|].
  cbn. rewrite He. exact IH.
Qed.

Lemma page_events_accepting (E : Env) :
  Forall (fun e => e <> too_large_error) (page_events E).
Proof.
  unfold page_events, key_prompt_events, setup_events.
  destruct (secrets E !! "GROQ_API_KEY") as [k|]; [destruct (truthy_str k)|];
    repeat constructor; discriminate.
Qed.

(** A file that is not too large enters the processing block, and the
    gate's error is not among the calls of the run; when the page can show
    the upload, the image encoder or the frame extractor runs. *)
Lemma main_accepts (E : Env) (w : World) (uploaded_file : UploadedFile.t) :
  has_key E = true ->
  uploaded E = Some uploaded_file ->
  truthy_str (question E) = true ->
  (UploadedFile.size uploaded_file <= 10 * 1024 * 1024)%Z ->
  main E w =
    (process_and_analyze E {| api_key := acquired_key E |} (media_label E)
       uploaded_file (question E) ;;
     tips_and_footer) (record (page_events E) w)
  /\ exists evs,
       log (snd (main E w)) = evs ++ log w /\
       In (block_entry E) evs /\
       ~ In too_large_error evs /\
       (shown E uploaded_file = true -> In (first_media_event E w) evs).
Proof.
  intros Hkey Hup Hq Hsize.
  rewrite (main_gate E w uploaded_file Hkey Hup Hq).
  destruct (Qgtb _ _) eqn:Hgate; [apply too_large_iff in Hgate; lia|].
  split; [reflexivity|].
  destruct (prepare_media_runs E uploaded_file (record (page_events E) w))
    as (evs1 & Hl1 & Hentry & Hmedia).
  destruct (emits_prepare_media (fun e => e <> too_large_error) E
              (fun e H _ => H) (media_label E) uploaded_file
              (record (page_events E) w)) as (evs1' & Hl1' & Hok1).
  rewrite Hl1 in Hl1'. apply app_inv_tail in Hl1'. subst evs1'.
  destruct (process_and_analyze_after_media E {| api_key := acquired_key E |}
              (media_label E) uploaded_file (question E)
              (record (page_events E) w)) as (evs2 & Hl2 & Hok2).
  exists (evs2 ++ evs1 ++ page_events E).
  rewrite Hl2, Hl1. cbn [record log]. rewrite <- !app_assoc.
  split; [reflexivity|]. split; [|split].
  - apply in_or_app. right. apply in_or_app. left. exact Hentry.
  - intros Hbad.
    assert (Hall : Forall (fun e => e <> too_large_error)
                     (evs2 ++ evs1 ++ page_events E)).
    { apply Forall_app; split; [exact Hok2|].
      apply Forall_app; split; [exact Hok1|apply page_events_accepting]. }
    rewrite List.Forall_forall in Hall. exact (Hall _ Hbad eq_refl).
  - intros Hshown. apply in_or_app. right. apply in_or_app. left.
    apply Hmedia, Hshown.
Qed.

(** ** Exceptions at the top level *)

Lemma never_raises_bind {A B} (m : M A) (k : A -> M B) :
  never_raises m -> (forall a, never_raises (k a)) -> never_raises (bind m k).
Proof.
  intros Hm Hk w e. unfold bind. specialize (Hm w).
  destruct (m w) as [[a|e'|] w']; cbn in *;
    [apply Hk|intros _; exact (Hm e' eq_refl)|discriminate].
Qed.

Lemma never_raises_emit (e : event) : never_raises (emit e).
Proof. intros w e'. discriminate. Qed.

(** A [try] block whose handler only reports the error lets no exception
    through, whatever its body does. *)
Lemma never_raises_try {A} (body : M A) (handler : exn -> M A) :
  (forall e, never_raises (handler e)) -> never_raises (try_except body handler).
Proof.
  intros Hh w e. unfold try_except.
  destruct (body w) as [[a|e'|] w']; [discriminate|apply Hh|discriminate].
Qed.

Lemma never_raises_tips_and_footer : never_raises tips_and_footer.
Proof.
  unfold tips_and_footer, st.expander, st.write.
  repeat (apply never_raises_bind; [|intros _]); apply never_raises_emit.
Qed.

(** With an entry for the key in the secret store (even an empty one), no
    exception leaves [main]. *)
Lemma main_never_raises (E : Env) :
  secrets E !! "GROQ_API_KEY" <> None -> never_raises (main E).
Proof.
  intros Hs. unfold main.
  apply never_raises_bind; [intros w e; discriminate|intros _].
  apply never_raises_bind.
  { intros w e. unfold load_api_key, st.secrets_getitem, st.password_input,
      bind, emit, ret.
    destruct (secrets E !! "GROQ_API_KEY") as [k|]; [|congruence].
    cbn. destruct (truthy_str k); [discriminate|]. cbn.
    destruct (truthy_str (key_typed E)); discriminate. }
  intros api_key. cbv zeta.
  apply never_raises_bind; [apply never_raises_emit|intros _].
  apply never_raises_bind; [intros w e; discriminate|intros media_type].
  apply never_raises_bind; [intros w e; discriminate|intros upload].
  apply never_raises_bind; [intros w e; discriminate|intros query].
  destruct upload as [uploaded_file|]; [|apply never_raises_tips_and_footer].
  destruct (truthy_str query); [|apply never_raises_tips_and_footer].
  destruct (Qgtb _ _); [apply never_raises_emit|].
  apply never_raises_bind; [|intros _; apply never_raises_tips_and_footer].
  apply never_raises_try. intros e. apply never_raises_emit.
Qed.

(** ** Claims about the page *)

(** C4 (the code departs from the claim). With no entry for the key in the
    secret store, main ends with the exception raised by the lookup right
    after setup_page: the masked prompt is never shown, although a key was
    typed into it, and the exception reaches the top level. *)
Theorem main_missing_secret_raises :
  main Sample.env_no_secret Sample.w0 =
    (Raise (secret_error Sample.env_no_secret "GROQ_API_KEY"),
     record setup_events Sample.w0).
Proof. apply main_missing_key. reflexivity. Qed.

(** C5, as stated: refuted. Called with an empty payload, or with None,
    analyze_with_groq sends a request (with an empty or "None" data URI)
    and returns the endpoint's answer; when the endpoint rejects the
    request the result is None, after the request has been sent. *)
Lemma analyze_with_groq_empty_payload_requests :
  (exists req,
     analyze_with_groq Sample.env_image {| api_key := "gsk_test" |}
       (Some "") "What color is the car?" Sample.w0
     = (Return (Some "The car is red."),
        record [EvCreate "gsk_test" req; EvSpinner "Analyzing with Groq..."]
          Sample.w0))
  /\
  (exists req,
     analyze_with_groq Sample.env_image {| api_key := "gsk_test" |}
       None "What color is the car?" Sample.w0
     = (Return (Some "The car is red."),
        record [EvCreate "gsk_test" req; EvSpinner "Analyzing with Groq..."]
          Sample.w0))
  /\
  (exists req,
     analyze_with_groq Sample.env_refused {| api_key := "gsk_test" |}
       (Some "") "What color is the car?" Sample.w0
     = (Return None,
        record [EvError "Analysis error: invalid image data";
                EvCreate "gsk_test" req; EvSpinner "Analyzing with Groq..."]
          Sample.w0)).
Proof. repeat split; eexists; reflexivity. Qed.

(** C5, amended. When the media step yields an empty or absent payload,
    main reports "Failed to process media file." and goes on to the tips
    and the footer without calling analyze_with_groq: the run sends no
    request. *)
Theorem main_skips_client_without_payload (E : Env) (w w1 : World)
    (uploaded_file : UploadedFile.t) (payload : option str) :
  has_key E = true ->
  uploaded E = Some uploaded_file ->
  truthy_str (question E) = true ->
  Qgtb (file_size uploaded_file) 10 = false ->
  prepare_media E (media_label E) uploaded_file (record (page_events E) w)
    = (Return payload, w1) ->
  truthy_opt truthy_str payload = false ->
  main E w =
    tips_and_footer (record [EvError "Failed to process media file."] w1)
  /\ List.filter is_request (log (snd (main E w)))
     = List.filter is_request (log w).
Proof.
  intros Hkey Hup Hq Hsize Hprep Hfalsy.
  assert (Hmain : main E w =
    tips_and_footer (record [EvError "Failed to process media file."] w1)).
  { rewrite (main_gate E w uploaded_file Hkey Hup Hq), Hsize.
    unfold process_and_analyze. unfold bind at 1.
    rewrite (try_bind_Return _ _ _ _ _ _ Hprep), Hfalsy. reflexivity. }
  split; [exact Hmain|]. rewrite Hmain.
  destruct (emits_prepare_media (fun e => is_request e = false) E
              (fun e _ H => H) (media_label E) uploaded_file
              (record (page_events E) w)) as (evs & Hl & Hquiet).
  rewrite Hprep in Hl. cbn [snd record log] in Hl.
  cbn [tips_and_footer snd record log app]. cbn. rewrite Hl.
  rewrite !List.filter_app, (filter_quiet evs Hquiet).
  rewrite (filter_quiet (page_events E)); [reflexivity|].
  eapply Forall_impl; [apply page_events_quiet|]. intros e [He _]. exact He.
Qed.

(** C6. For a non-empty payload and a non-empty query, analyze_with_groq
    sends exactly one request, and its messages are one user message whose
    content is the text part "Please analyze this image and answer: "
    followed by the query, then the image_url part whose url is
    "data:image/jpeg;base64," followed by the payload. *)
Theorem analyze_with_groq_message (E : Env) (client : Groq)
    (payload query : str) (w : World) :
  truthy_str payload = true ->
  truthy_str query = true ->
  exists req evs,
    log (snd (analyze_with_groq E client (Some payload) query w))
      = evs ++ log w /\
    List.filter is_request evs = [EvCreate (api_key client) req] /\
    messages req =
      PList [
        PDict [
          ("role", PStr "user");
          ("content", PList [
             PDict [
               ("type", PStr "text");
               ("text", PStr ("Please analyze this image and answer: "
                              +:+ query))
             ];
             PDict [
               ("type", PStr "image_url");
               ("image_url", PDict [
                  ("url", PStr ("data:image/jpeg;base64," +:+ payload))
                ])
             ]
           ])
        ]
      ].
Proof.
  intros _ _.
  destruct (analyze_with_groq_run E client (Some payload) query w)
    as (req & reported & Hreq & Hrun & Hrep).
  exists req, (reported ++ [EvCreate (api_key client) req;
                            EvSpinner "Analyzing with Groq..."]).
  rewrite Hrun. split; [reflexivity|]. split.
  - rewrite Hrep.
    destruct (endpoint E _ _) as [e|[[|choice rest]]]; reflexivity.
  - rewrite Hreq. reflexivity.
Qed.

(** C7. Every call of analyze_with_groq sends exactly one request, with
    model "llama-3.2-11b-vision-preview", temperature 0.7 and max_tokens
    1000, whatever the payload and the query; when the endpoint answers
    with at least one choice, the call returns the message content of the
    first choice. *)
Theorem analyze_with_groq_parameters (E : Env) (client : Groq)
    (base64_image : option str) (query : str) (w : World) :
  exists req evs,
    log (snd (analyze_with_groq E client base64_image query w))
      = evs ++ log w /\
    List.filter is_request evs = [EvCreate (api_key client) req] /\
    model req = "llama-3.2-11b-vision-preview" /\
    temperature req = 7 # 10 /\
    max_tokens req = 1000%Z /\
    forall resp choice rest,
      endpoint E (api_key client) req = inr resp ->
      choices resp = choice :: rest ->
      fst (analyze_with_groq E client base64_image query w)
        = Return (content (message choice)).
Proof.
  destruct (analyze_with_groq_run E client base64_image query w)
    as (req & reported & Hreq & Hrun & Hrep).
  exists req, (reported ++ [EvCreate (api_key client) req;
                            EvSpinner "Analyzing with Groq..."]).
  rewrite Hrun. split; [reflexivity|]. split.
  - rewrite Hrep.
    destruct (endpoint E _ _) as [e|[[|choice rest]]]; reflexivity.
  - rewrite Hreq at 1 2 3. repeat split.
    intros resp choice rest -> Hchoices. destruct resp as [cs].
    cbn in Hchoices. subst cs. reflexivity.
Qed.

(** C8. With a key, an upload and a non-empty query: a file of more than
    10 MB (10 * 1024 * 1024 bytes) ends the run with the error "File is too
    large! ..." as the last call, and no call of the image encoder or
    of the frame extractor is made; a file of 9.9 MB (10380902 bytes)
    is not rejected and enters the processing block, where the image
    encoder or the frame extractor runs (for an image, once the page has
    shown it). *)
Theorem size_gate (E : Env) (w : World) (uploaded_file : UploadedFile.t) :
  has_key E = true ->
  uploaded E = Some uploaded_file ->
  truthy_str (question E) = true ->
  ((10 * 1024 * 1024 < UploadedFile.size uploaded_file)%Z ->
   main E w = (Return tt, record (too_large_error :: page_events E) w) /\
   Forall (fun e => is_media_step e = false)
     (too_large_error :: page_events E))
  /\
  (UploadedFile.size uploaded_file = 10380902%Z ->
   main E w =
     (process_and_analyze E {| api_key := acquired_key E |} (media_label E)
        uploaded_file (question E) ;;
      tips_and_footer) (record (page_events E) w) /\
   exists evs,
     log (snd (main E w)) = evs ++ log w /\
     In (block_entry E) evs /\
     ~ In too_large_error evs /\
     (shown E uploaded_file = true -> In (first_media_event E w) evs)).
Proof.
  intros Hkey Hup Hq. split.
  - intros Hsize. apply too_large_iff in Hsize.
    rewrite (main_gate E w uploaded_file Hkey Hup Hq), Hsize.
    split; [reflexivity|]. constructor; [reflexivity|].
    eapply Forall_impl; [apply page_events_quiet|]. intros e [_ He]. exact He.
  - intros Hsize. apply main_accepts; try assumption. lia.
Qed.

(** C9. The gate compares strictly: the file is too large exactly when its
    size in bytes exceeds 10 * 1024 * 1024, so a file of exactly
    10 * 1024 * 1024 bytes is not rejected: it enters the processing
    block, the error "File is too large! ..." is not among the calls of
    the run, and the image encoder or the frame extractor runs (for an
    image, once the page has shown it). *)
Theorem size_gate_strict (E : Env) (w : World)
    (uploaded_file : UploadedFile.t) :
  has_key E = true ->
  uploaded E = Some uploaded_file ->
  truthy_str (question E) = true ->
  (Qgtb (file_size uploaded_file) 10 = true <->
   (10 * 1024 * 1024 < UploadedFile.size uploaded_file)%Z)
  /\
  (UploadedFile.size uploaded_file = (10 * 1024 * 1024)%Z ->
   Qgtb (file_size uploaded_file) 10 = false /\
   main E w =
     (process_and_analyze E {| api_key := acquired_key E |} (media_label E)
        uploaded_file (question E) ;;
      tips_and_footer) (record (page_events E) w) /\
   exists evs,
     log (snd (main E w)) = evs ++ log w /\
     In (block_entry E) evs /\
     ~ In too_large_error evs /\
     (shown E uploaded_file = true -> In (first_media_event E w) evs)).
Proof.
  intros Hkey Hup Hq. split; [apply too_large_iff|].
  intros Hsize. split.
  - apply not_true_iff_false. rewrite too_large_iff. lia.
  - apply main_accepts; try assumption. lia.
Qed.

(** ** The theorems at sample inputs *)

(** The photo "Man" encodes to "TWFu", which decodes to the same bytes. *)
Lemma encode_image_roundtrip_witness :
  UploadedFile.closed Sample.photo = false /\
  exists payload w',
    encode_image Sample.photo Sample.w0 = (Return (Some payload), w') /\
    payload = "TWFu" /\
    base64.b64decode payload = Some (list_byte_of_string "Man").
Proof.
  split; [reflexivity|].
  exact (encode_image_roundtrip Sample.photo Sample.w0 eq_refl).
Defined.

(** A clip of three frames is read at position 1; a clip without frames
    is read at position 0 and gives (None, None). *)
Lemma process_video_frame_middle_witness :
  (exists evs,
     log (snd (process_video_frame Sample.env_video Sample.clip Sample.w0))
       = evs ++ [] /\
     List.filter is_seek_or_read evs = [EvCapRead 1; EvCapSet 1])
  /\ (exists evs,
        log (snd (process_video_frame Sample.env_no_frames Sample.clip
                    Sample.w0)) = evs ++ [] /\
        List.filter is_seek_or_read evs = [EvCapRead 0; EvCapSet 0])
  /\ fst (process_video_frame Sample.env_no_frames Sample.clip Sample.w0)
     = Return (None, None).
Proof.
  split; [|split].
  - destruct (process_video_frame_middle Sample.env_video Sample.clip
                Sample.w0 eq_refl) as [H _].
    exact H.
  - destruct (process_video_frame_middle Sample.env_no_frames Sample.clip
                Sample.w0 eq_refl) as [H _].
    exact H.
  - destruct (process_video_frame_middle Sample.env_no_frames Sample.clip
                Sample.w0 eq_refl) as (_ & _ & _ & _ & H & _).
    apply H; reflexivity.
Defined.

(** An empty image file has the empty payload; the run sends no request. *)
Lemma main_skips_client_without_payload_witness :
  has_key Sample.env_blank = true /\
  Qgtb (file_size Sample.blank) 10 = false /\
  List.filter is_request (log (snd (main Sample.env_blank Sample.w0))) = [].
Proof.
  split; [reflexivity|]. split; [reflexivity|].
  refine (proj2 (main_skips_client_without_payload Sample.env_blank
                   Sample.w0 _ Sample.blank (Some "")
                   eq_refl eq_refl eq_refl eq_refl _ eq_refl)).
  reflexivity.
Defined.

Lemma analyze_with_groq_message_witness :
  exists req evs,
    log (snd (analyze_with_groq Sample.env_image {| api_key := "gsk_test" |}
                (Some "TWFu") "What color is the car?" Sample.w0))
      = evs ++ [] /\
    List.filter is_request evs = [EvCreate "gsk_test" req] /\
    messages req =
      PList [
        PDict [
          ("role", PStr "user");
          ("content", PList [
             PDict [
               ("type", PStr "text");
               ("text", PStr "Please analyze this image and answer: What color is the car?")
             ];
             PDict [
               ("type", PStr "image_url");
               ("image_url", PDict [
                  ("url", PStr "data:image/jpeg;base64,TWFu")
                ])
             ]
           ])
        ]
      ].
Proof.
  exact (analyze_with_groq_message Sample.env_image
           {| api_key := "gsk_test" |} "TWFu" "What color is the car?"
           Sample.w0 eq_refl eq_refl).
Defined.

(** The endpoint answers with two choices; the first one is returned. *)
Lemma analyze_with_groq_parameters_witness :
  fst (analyze_with_groq Sample.env_image {| api_key := "gsk_test" |}
         (Some "TWFu") "What color is the car?" Sample.w0)
  = Return (Some "The car is red.").
Proof.
  destruct (analyze_with_groq_parameters Sample.env_image
              {| api_key := "gsk_test" |} (Some "TWFu")
              "What color is the car?" Sample.w0)
    as (req & evs & _ & _ & _ & _ & _ & H).
  exact (H _ _ _ eq_refl eq_refl).
Defined.

(** 11000000 bytes are rejected; 10380902 bytes (9.9 MB) reach the
    encoder. *)
Lemma size_gate_witness :
  main (Sample.env_sized 11000000) Sample.w0 =
    (Return tt,
     record (too_large_error :: page_events (Sample.env_sized 11000000))
       Sample.w0)
  /\ exists evs,
       log (snd (main (Sample.env_sized 10380902) Sample.w0)) = evs ++ [] /\
       In (EvImage "Uploaded Image") evs /\ ~ In too_large_error evs /\
       In (EvSeek 0) evs.
Proof.
  split.
  - destruct (size_gate (Sample.env_sized 11000000) Sample.w0 _
                eq_refl eq_refl eq_refl) as [H _].
    apply H. reflexivity.
  - destruct (size_gate (Sample.env_sized 10380902) Sample.w0 _
                eq_refl eq_refl eq_refl) as [_ H].
    destruct (H eq_refl) as (_ & evs & Hl & Hentry & Hok & Hmedia).
    exists evs. repeat split; [exact Hl|exact Hentry|exact Hok|].
    apply Hmedia. reflexivity.
Defined.

(** Exactly 10485760 bytes reach the encoder. *)
Lemma size_gate_strict_witness :
  Qgtb (file_size (Sample.with_size Sample.photo (10 * 1024 * 1024))) 10
    = false
  /\ exists evs,
       log (snd (main (Sample.env_sized (10 * 1024 * 1024)) Sample.w0))
         = evs ++ [] /\
       In (EvImage "Uploaded Image") evs /\ ~ In too_large_error evs /\
       In (EvSeek 0) evs.
Proof.
  destruct (size_gate_strict (Sample.env_sized (10 * 1024 * 1024)) Sample.w0
              _ eq_refl eq_refl eq_refl) as [_ H].
  destruct (H eq_refl) as (Hgate & _ & evs & Hl & Hentry & Hok & Hmedia).
  split; [exact Hgate|].
  exists evs. repeat split; [exact Hl|exact Hentry|exact Hok|].
  apply Hmedia. reflexivity.
Defined.

(** ** Sample runs *)

Example b64encode_vectors :
  base64.b64encode (list_byte_of_string "") = list_byte_of_string "" /\
  base64.b64encode (list_byte_of_string "f") = list_byte_of_string "Zg==" /\
  base64.b64encode (list_byte_of_string "fo") = list_byte_of_string "Zm8=" /\
  base64.b64encode (list_byte_of_string "foo") = list_byte_of_string "Zm9v" /\
  base64.b64encode (list_byte_of_string "foobar")
    = list_byte_of_string "Zm9vYmFy".
Proof. repeat split. Qed.

Example b64decode_vectors :
  base64.b64decode "Zm9vYg==" = Some (list_byte_of_string "foob") /\
  base64.b64decode "Zg==Zm9v" = None /\
  base64.b64decode "Zm9" = None /\
  base64.b64decode "Zm9*" = None.
Proof. repeat split. Qed.

Example lower_labels : lower "Image" = "image" /\ lower "Video" = "video".
Proof. split; reflexivity. Qed.

(** A photo and a question: one request carrying the photo as a data URI,
    and the answer written to the page. *)
Example main_image_run :
  fst (main Sample.env_image Sample.w0) = Return tt /\
  List.filter is_request (log (snd (main Sample.env_image Sample.w0)))
  = [EvCreate "gsk_test"
       {| messages :=
            PList [
              PDict [
                ("role", PStr "user");
                ("content", PList [
                   PDict [
                     ("type", PStr "text");
                     ("text", PStr "Please analyze this image and answer: What color is the car?")
                   ];
                   PDict [
                     ("type", PStr "image_url");
                     ("image_url", PDict [
                        ("url", PStr "data:image/jpeg;base64,TWFu")
                      ])
                   ]
                 ])
              ]
            ];
          model := "llama-3.2-11b-vision-preview";
          temperature := 7 # 10;
          max_tokens := 1000 |}] /\
  nth_error (log (snd (main Sample.env_image Sample.w0))) 4
  = Some (EvWrite "The car is red.").
Proof. vm_compute. repeat split. Qed.

(** A clip of three frames: frame 1 is read, the payload is the base64
    text of its JPEG encoding, and the temporary file is gone. *)
Example process_video_frame_run :
  process_video_frame Sample.env_video Sample.clip Sample.w0 =
    (Return (Some "SlBH", Some (fromarray (cv2.cvtColor_BGR2RGB Sample.frame))),
     {| files := ∅;
        cursor := 4;
        log := [EvUnlink Sample.tmp; EvCapRelease; EvImencode ".jpg";
                EvCapRead 1; EvCapSet 1; EvCapGet; EvCapture Sample.tmp;
                EvRead; EvTempFile Sample.tmp] |}).
Proof.
  rewrite (process_video_frame_success _ _ _ Sample.frame
             (list_byte_of_string "JPG")); reflexivity.
Qed.

(** * Further properties of the script *)

(** ** The four ways a frame extraction ends *)

Lemma process_video_frame_cases (E : Env) (video_file : UploadedFile.t)
    (w : World) :
  let path := tmp_path E w in
  let content := video_content video_file w in
  let v := demux E content in
  let middle := (reported_frames v / 2)%Z in
  let cursor' := Nat.max (cursor w) (length (UploadedFile.data video_file)) in
  let seen := [EvCapRead middle; EvCapSet middle; EvCapGet; EvCapture path;
               EvRead; EvTempFile path] in
  (UploadedFile.closed video_file = true /\
   process_video_frame E video_file w =
     (Return (None, None),
      {| files := <[path := []]> (files w); cursor := cursor w;
         log := EvError
                  "Error processing video: I/O operation on closed file."
                :: EvRead :: EvTempFile path :: log w |}))
  \/
  (UploadedFile.closed video_file = false /\
   frame_read v middle = None /\
   process_video_frame E video_file w =
     (Return (None, None),
      {| files := delete path (files w); cursor := cursor';
         log := EvUnlink path :: EvCapRelease :: seen ++ log w |}))
  \/
  (exists frame e,
     UploadedFile.closed video_file = false /\
     frame_read v middle = Some frame /\
     jpeg E frame = inl e /\
     process_video_frame E video_file w =
       (Return (None, None),
        {| files := <[path := content]> (files w); cursor := cursor';
           log := EvError ("Error processing video: " +:+ exn_str e)
                  :: EvImencode ".jpg" :: seen ++ log w |}))
  \/
  (exists frame buffer,
     UploadedFile.closed video_file = false /\
     frame_read v middle = Some frame /\
     jpeg E frame = inr buffer /\
     process_video_frame E video_file w =
       (Return (Some (string_of_list_byte (base64.b64encode buffer)),
                Some (fromarray (cv2.cvtColor_BGR2RGB frame))),
        {| files := delete path (files w); cursor := cursor';
           log := EvUnlink path :: EvCapRelease :: EvImencode ".jpg"
                  :: seen ++ log w |})).
Proof.
  intros path content v middle cursor' seen.
  destruct (UploadedFile.closed video_file) eqn:Hclosed.
  - left. split; [reflexivity|].
    apply process_video_frame_closed, Hclosed.
  - right. destruct (frame_read v middle) as [frame|] eqn:Hframe.
    + right. destruct (jpeg E frame) as [e|buffer] eqn:Hjpeg.
      * left. exists frame, e. repeat split; try assumption.
        apply (process_video_frame_encode_error E video_file w frame e);
          assumption.
      * right. exists frame, buffer. repeat split; try assumption.
        apply (process_video_frame_success E video_file w frame buffer);
          assumption.
    + left. repeat split.
      apply process_video_frame_no_frame; assumption.
Qed.

(** ** The frame extractor and the disk *)

Lemma process_video_frame_other_files (E : Env)
    (video_file : UploadedFile.t) (w : World) (p : str) :
  p <> tmp_path E w ->
  files (snd (process_video_frame E video_file w)) !! p = files w !! p.
Proof.
  intros Hp.
  destruct (process_video_frame_cases E video_file w)
    as [(_ & ->)|[(_ & _ & ->)|[(frame & e & _ & _ & _ & ->)
       |(frame & buffer & _ & _ & _ & ->)]]]; cbn [snd files].
  - apply lookup_insert_ne. congruence.
  - apply lookup_delete_ne. congruence.
  - apply lookup_insert_ne. congruence.
  - apply lookup_delete_ne. congruence.
Qed.

(** X1. process_video_frame changes no file other than its temporary file:
    on every exit path, every other path holds after the call what it held
    before. *)
Theorem process_video_frame_touches_only_tmp (E : Env)
    (video_file : UploadedFile.t) (w : World) (p : str) :
  p <> tmp_path E w ->
  files (snd (process_video_frame E video_file w)) !! p = files w !! p.
Proof.
  intros Hp.
  destruct (process_video_frame_cases E video_file w)
    as [(Hc & Heq)|[(Ho & Hf & Heq)|[(frame & e & Ho & Hf & Hj & Heq)
       |(frame & buffer & Ho & Hf & Hj & Heq)]]];
    rewrite Heq; cbn [snd files];
    first [apply lookup_insert_ne | apply lookup_delete_ne];
    intros Hsame; apply Hp; symmetry; exact Hsame.
Qed.

(** X2. When the name chosen for the temporary file is new and the call
    ends without an exception in its body (the middle frame cannot be read,
    or it is read and encoded), the disk after the call is the disk before
    it. *)
Theorem process_video_frame_restores_disk (E : Env)
    (video_file : UploadedFile.t) (w : World) :
  UploadedFile.closed video_file = false ->
  files w !! tmp_path E w = None ->
  let v := demux E (video_content video_file w) in
  let middle := (reported_frames v / 2)%Z in
  (frame_read v middle = None \/
   exists frame buffer,
     frame_read v middle = Some frame /\ jpeg E frame = inr buffer) ->
  files (snd (process_video_frame E video_file w)) = files w.
Proof.
  intros Hopen Hfresh v middle Hpath.
  destruct (process_video_frame_cases E video_file w)
    as [(Hc & _)|[(_ & _ & ->)|[(frame & e & _ & Hf & Hj & _)
       |(frame & buffer & _ & _ & _ & ->)]]]; cbn [snd files].
  - congruence.
  - apply delete_id, Hfresh.
  - exfalso. fold v middle in Hf.
    destruct Hpath as [Hn|(f' & b' & Hf' & Hj')]; congruence.
  - apply delete_id, Hfresh.
Qed.

(** ** What a successful extraction returns *)

Lemma lookup_map {A B} (f : A -> B) (l : list A) (i : nat) :
  map f l !! i = f <$> (l !! i).
Proof.
  revert i. induction l as [|x l IH]; intros [|i]; cbn; auto.
Qed.

(** X3. Whenever process_video_frame returns a payload, base64-decoding the
    payload gives exactly the JPEG buffer of the frame read at the middle
    position, and the display image returned with it is made from that
    same frame. *)
Theorem process_video_frame_payload_roundtrip (E : Env)
    (video_file : UploadedFile.t) (w : World) (payload : str)
    (display : option Image) :
  fst (process_video_frame E video_file w) = Return (Some payload, display) ->
  let v := demux E (video_content video_file w) in
  exists frame buffer,
    frame_read v (reported_frames v / 2) = Some frame /\
    jpeg E frame = inr buffer /\
    base64.b64decode payload = Some buffer /\
    display = Some (fromarray (cv2.cvtColor_BGR2RGB frame)).
Proof.
  intros Hrun v.
  destruct (process_video_frame_cases E video_file w)
    as [(_ & Heq)|[(_ & _ & Heq)|[(frame & e & _ & _ & _ & Heq)
       |(frame & buffer & _ & Hf & Hj & Heq)]]];
    rewrite Heq in Hrun; cbn [fst] in Hrun; try discriminate.
  injection Hrun as <- <-. exists frame, buffer.
  repeat split; try assumption. apply b64decode_b64encode.
Qed.

(** X4. The display image of a successful extraction has mode RGB and the
    dimensions of the frame that was encoded, and each of its pixels is
    the frame's pixel with the first and third channels exchanged. *)
Theorem process_video_frame_display_image (E : Env)
    (video_file : UploadedFile.t) (w : World) (payload : option str)
    (image : Image) :
  fst (process_video_frame E video_file w) = Return (payload, Some image) ->
  let v := demux E (video_content video_file w) in
  exists frame,
    frame_read v (reported_frames v / 2) = Some frame /\
    mode image = "RGB" /\
    length (pixels image) = length frame /\
    forall i (row : list (byte * byte * byte)),
      frame !! i = Some row ->
      exists row',
        pixels image !! i = Some row' /\
        length row' = length row /\
        forall j b g r,
          row !! j = Some (b, g, r) -> row' !! j = Some (r, g, b).
Proof.
  intros Hrun v.
  destruct (process_video_frame_cases E video_file w)
    as [(_ & Heq)|[(_ & _ & Heq)|[(frame & e & _ & _ & _ & Heq)
       |(frame & buffer & _ & Hf & Hj & Heq)]]];
    rewrite Heq in Hrun; cbn [fst] in Hrun; try discriminate.
  injection Hrun as _ <-. exists frame.
  split; [exact Hf|]. split; [reflexivity|].
  unfold fromarray, cv2.cvtColor_BGR2RGB. cbn [pixels]. split.
  - apply length_map.
  - intros i row Hrow. unfold Frame in *.
    exists (map (fun '(b, g, r) => (r, g, b)) row). split; [|split].
    + etransitivity; [apply lookup_map|]. rewrite Hrow. reflexivity.
    + apply length_map.
    + intros j b g r Hpix.
      etransitivity; [apply lookup_map|]. rewrite Hpix. reflexivity.
Qed.

(** X5. For a video, the media step of main writes "Processing video
    frame...", runs the frame extractor and returns the extractor's
    payload; it shows "Analyzed Video Frame (Middle Frame)" after the
    extractor's calls exactly when there is a payload, and otherwise
    leaves the world as the extractor left it. *)
Theorem prepare_media_video (E : Env) (media_type : str)
    (video_file : UploadedFile.t) (w : World) :
  (media_type =? "Image")%string = false ->
  exists payload display w2 evs,
    process_video_frame E video_file
      (record [EvWrite "Processing video frame..."] w)
    = (Return (payload, display), w2) /\
    prepare_media E media_type video_file w =
      (Return payload,
       match payload with
       | Some _ => record [EvImage "Analyzed Video Frame (Middle Frame)"] w2
       | None => w2
       end) /\
    log (snd (prepare_media E media_type video_file w)) = evs ++ log w /\
    (In (EvImage "Analyzed Video Frame (Middle Frame)") evs <->
     payload <> None).
Proof.
  intros Hvideo. unfold prepare_media. rewrite Hvideo.
  unfold st.write, st.image, bind, emit, ret, record. cbv beta iota.
  cbn [app].
  match goal with |- context [process_video_frame _ _ ?w1] =>
    destruct (process_video_frame_cases E video_file w1)
      as [(_ & Heq)|[(_ & _ & Heq)|[(frame & e & _ & _ & _ & Heq)
         |(frame & buffer & _ & _ & _ & Heq)]]];
      rewrite Heq end;
    cbn.
  - eexists _, _, _, [_; _; _; _]. split; [reflexivity|].
    split; [reflexivity|]. split; [reflexivity|].
    split; [|congruence]. cbn. intros H.
    repeat destruct H as [H|H]; try discriminate; contradiction.
  - eexists _, _, _, (_ :: _ :: _ :: _ :: _ :: _ :: _ :: _ :: [_]).
    split; [reflexivity|]. split; [reflexivity|]. split; [reflexivity|].
    split; [|congruence]. cbn. intros H.
    repeat destruct H as [H|H]; try discriminate; contradiction.
  - eexists _, _, _, (_ :: _ :: _ :: _ :: _ :: _ :: _ :: _ :: [_]).
    split; [reflexivity|]. split; [reflexivity|]. split; [reflexivity|].
    split; [|congruence]. cbn. intros H.
    repeat destruct H as [H|H]; try discriminate; contradiction.
  - eexists _, _, _,
      (_ :: _ :: _ :: _ :: _ :: _ :: _ :: _ :: _ :: _ :: [_]).
    split; [reflexivity|]. split; [reflexivity|]. split; [reflexivity|].
    split; [discriminate|]. intros _. left. reflexivity.
Qed.

(** ** How a run of the page ends *)

Lemma tips_and_footer_run (w : World) :
  tips_and_footer w = (Return tt, record tips_events w).
Proof. reflexivity. Qed.

(** With a key, the run reaches the question box with the page's calls
    logged, and goes on according to the upload and the question. *)
Lemma main_page (E : Env) (w : World) :
  has_key E = true ->
  main E w =
    match uploaded E with
    | Some uploaded_file =>
        if truthy_str (question E) then
          if Qgtb (file_size uploaded_file) 10 then
            (Return tt, record (too_large_error :: page_events E) w)
          else
            (process_and_analyze E {| api_key := acquired_key E |}
               (media_label E) uploaded_file (question E) ;;
             tips_and_footer) (record (page_events E) w)
        else (Return tt, record (tips_events ++ page_events E) w)
    | None => (Return tt, record (tips_events ++ page_events E) w)
    end.
Proof.
  intros Hkey. unfold main.
  rewrite (bind_Return _ _ _ _ _ (setup_page_run w)).
  destruct (load_api_key_has_key E (record setup_events w) Hkey) as [Hl _].
  rewrite (bind_Return _ _ _ _ _ Hl).
  unfold st.write, st.radio, st.file_uploader, st.text_input, st.error.
  unfold bind at 1 2 3 4 5 6 7. cbn [emit ret].
  destruct (uploaded E) as [uploaded_file|];
    [destruct (truthy_str (question E)); [destruct (Qgtb _ _)|]|];
    rewrite ?tips_and_footer_run;
    unfold page_events, record, tips_events, too_large_error;
    cbn [app files cursor log]; rewrite <- ?app_assoc; reflexivity.
Qed.

Lemma never_stops_bind {A B} (m : M A) (k : A -> M B) :
  never_stops m -> (forall a, never_stops (k a)) -> never_stops (bind m k).
Proof.
  intros Hm Hk w. unfold bind. specialize (Hm w).
  destruct (m w) as [[a|e|] w']; cbn in *;
    [apply Hk|discriminate|contradiction].
Qed.

Lemma never_stops_try {A} (body : M A) (handler : exn -> M A) :
  never_stops body -> (forall e, never_stops (handler e)) ->
  never_stops (try_except body handler).
Proof.
  intros Hb Hh w. unfold try_except. specialize (Hb w).
  destruct (body w) as [[a|e|] w']; cbn in *;
    [discriminate|apply Hh|contradiction].
Qed.

Lemma never_stops_emit (e : event) : never_stops (emit e).
Proof. intros w. discriminate. Qed.

Lemma never_stops_ret {A} (a : A) : never_stops (ret a).
Proof. intros w. discriminate. Qed.

Lemma never_stops_lift {A} (r : exn + A) : never_stops (lift r).
Proof. destruct r; intros w; discriminate. Qed.

Lemma never_stops_encode_image (file : UploadedFile.t) :
  never_stops (encode_image file).
Proof.
  intros w.
  destruct (encode_image_returns file w) as (r & w' & evs & -> & _).
  discriminate.
Qed.

Lemma never_stops_process_video_frame (E : Env)
    (video_file : UploadedFile.t) :
  never_stops (process_video_frame E video_file).
Proof.
  intros w.
  destruct (process_video_frame_returns E video_file w)
    as (r & w' & evs & -> & _).
  discriminate.
Qed.

Lemma never_stops_analyze_with_groq (E : Env) (client : Groq)
    (base64_image : option str) (query : str) :
  never_stops (analyze_with_groq E client base64_image query).
Proof.
  intros w.
  destruct (analyze_with_groq_run E client base64_image query w)
    as (req & reported & _ & -> & _).
  discriminate.
Qed.

Lemma never_stops_prepare_media (E : Env) (media_type : str)
    (uploaded_file : UploadedFile.t) :
  never_stops (prepare_media E media_type uploaded_file).
Proof.
  unfold prepare_media, st.image_file, st.image, st.write.
  destruct (media_type =? "Image")%string.
  - apply never_stops_bind; [|intros _; apply never_stops_encode_image].
    apply never_stops_bind; [apply never_stops_emit|intros _].
    apply never_stops_lift.
  - apply never_stops_bind; [apply never_stops_emit|intros _].
    apply never_stops_bind; [apply never_stops_process_video_frame|].
    intros [p d]. apply never_stops_bind; [|intros _; apply never_stops_ret].
    destruct (truthy_opt _ d); [apply never_stops_emit|apply never_stops_ret].
Qed.

(** The [try] block of main always returns: what its body raises is
    reported by its handler, and nothing in it stops the page. *)
Lemma process_and_analyze_returns (E : Env) (client : Groq)
    (media_type : str) (uploaded_file : UploadedFile.t) (query : str)
    (w : World) :
  exists w',
    process_and_analyze E client media_type uploaded_file query w
    = (Return tt, w').
Proof.
  assert (Hr : never_raises
                 (process_and_analyze E client media_type uploaded_file
                    query)).
  { apply never_raises_try. intros e. apply never_raises_emit. }
  assert (Hs : never_stops
                 (process_and_analyze E client media_type uploaded_file
                    query)).
  { unfold process_and_analyze, st.success, st.write, st.error.
    apply never_stops_try; [|intros e; apply never_stops_emit].
    apply never_stops_bind; [apply never_stops_prepare_media|intros p].
    destruct (truthy_opt truthy_str p); [|apply never_stops_emit].
    apply never_stops_bind; [apply never_stops_analyze_with_groq|].
    intros [text|]; [|apply never_stops_ret].
    destruct (truthy_str text); [|apply never_stops_ret].
    repeat (apply never_stops_bind; [apply never_stops_emit|intros _]).
    apply never_stops_emit. }
  specialize (Hr w). specialize (Hs w).
  destruct (process_and_analyze _ _ _ _ _ w) as [[[]|e|] w']; cbn in *.
  - eauto.
  - exfalso. exact (Hr e eq_refl).
  - contradiction.
Qed.

(** X6. How main ends depends only on the key: with no entry for the key
    in the secret store it ends with the exception the lookup raises,
    whichever that is; with an empty entry and an empty prompt it is
    stopped; in every other case it returns, whatever the upload, the
    decoder, the encoder, the display and the endpoint do. *)
Theorem main_outcome (E : Env) (w : World) :
  fst (main E w) =
    match secrets E !! "GROQ_API_KEY" with
    | None => Raise (secret_error E "GROQ_API_KEY")
    | Some k =>
        if truthy_str k || truthy_str (key_typed E) then Return tt
        else Stopped
    end.
Proof.
  destruct (secrets E !! "GROQ_API_KEY") as [k|] eqn:Hs.
  - destruct (truthy_str k || truthy_str (key_typed E)) eqn:Hk.
    + assert (Hkey : has_key E = true) by (unfold has_key; rewrite Hs; exact Hk).
      rewrite (main_page E w Hkey).
      destruct (uploaded E) as [uploaded_file|]; [|reflexivity].
      destruct (truthy_str (question E)); [|reflexivity].
      destruct (Qgtb _ _); [reflexivity|].
      unfold bind.
      destruct (process_and_analyze_returns E {| api_key := acquired_key E |}
                  (media_label E) uploaded_file (question E)
                  (record (page_events E) w)) as (w' & ->).
      reflexivity.
    + apply orb_false_iff in Hk. destruct Hk as [Hk Ht].
      rewrite (main_stops E w k Hs Hk Ht). reflexivity.
  - rewrite (main_missing_key E w Hs). reflexivity.
Qed.

(** X7. With a key but without an upload, or with an empty question, main
    shows the page, the tips and the footer and returns: it makes no call
    of the image encoder or of the frame extractor and sends no
    request. *)
Theorem main_without_input (E : Env) (w : World) :
  has_key E = true ->
  submitted E = false ->
  main E w = (Return tt, record (tips_events ++ page_events E) w) /\
  Forall (fun e => is_media_step e = false /\ is_request e = false)
    (tips_events ++ page_events E).
Proof.
  intros Hkey Hsub. split.
  - rewrite (main_page E w Hkey). unfold submitted in Hsub.
    destruct (uploaded E) as [uploaded_file|]; [|reflexivity].
    rewrite Hsub. reflexivity.
  - apply Forall_app. split; [repeat constructor|].
    eapply Forall_impl; [apply page_events_quiet|].
    intros e [Hr Hm]. split; assumption.
Qed.

(** X8. With an entry for the key that is empty and nothing typed into the
    prompt, main is stopped right after the warning: the log holds the
    calls of setup_page, the masked prompt, the warning and the stop, so
    the media widgets are never shown and nothing is processed or sent,
    whatever was uploaded. *)
Theorem main_halts_without_key (E : Env) (w : World) :
  secrets E !! "GROQ_API_KEY" <> None ->
  has_key E = false ->
  main E w =
    (Stopped,
     record ([EvStop; EvWarning "Please enter your Groq API key to continue.";
              EvTextInput "Enter your Groq API key:" true] ++ setup_events)
       w).
Proof.
  intros Hentry Hkey. unfold has_key in Hkey.
  destruct (secrets E !! "GROQ_API_KEY") as [k|] eqn:Hs; [|congruence].
  apply orb_false_iff in Hkey. destruct Hkey as [Hk Ht].
  exact (main_stops E w k Hs Hk Ht).
Qed.

(** X9. With a key, every run of main logs the page's calls first; a run
    that rejects the upload for its size ends with the error and shows
    neither the tips nor the footer; every other run ends with the tips
    section and the footer. *)
Theorem main_last_calls (E : Env) (w : World) :
  has_key E = true ->
  exists evs,
    log (snd (main E w)) = evs ++ page_events E ++ log w /\
    if rejects E then evs = [too_large_error]
    else exists evs', evs = tips_events ++ evs'.
Proof.
  intros Hkey. rewrite (main_page E w Hkey). unfold rejects.
  destruct (uploaded E) as [uploaded_file|];
    [destruct (truthy_str (question E)); [destruct (Qgtb _ _)|]|];
    cbn [andb].
  - exists [too_large_error]. split; reflexivity.
  - destruct (process_and_analyze_returns E {| api_key := acquired_key E |}
                (media_label E) uploaded_file (question E)
                (record (page_events E) w)) as (w' & Hrun).
    destruct (emits_process_and_analyze (fun _ => True) E (fun _ _ => I)
                {| api_key := acquired_key E |} (media_label E)
                uploaded_file (question E) (record (page_events E) w))
      as (evs' & Hl & _).
    rewrite Hrun in Hl. cbn [snd record log] in Hl.
    rewrite (bind_Return _ _ _ _ _ Hrun), tips_and_footer_run.
    exists (tips_events ++ evs'). cbn [snd record log].
    rewrite Hl, <- !app_assoc. split; [reflexivity|eauto].
  - exists (tips_events ++ []). cbn [snd record log].
    rewrite <- !app_assoc. split; [reflexivity|eauto].
  - exists (tips_events ++ []). cbn [snd record log].
    rewrite <- !app_assoc. split; [reflexivity|eauto].
Qed.

(** ** The requests of a run *)

Local Ltac log_after Hl :=
  cbn; rewrite ?Hl; unfold tips_events; cbn [app]; rewrite <- ?app_assoc;
  reflexivity.

(** The processing block and the end of the page send no request, or
    exactly one, built from a non-empty payload and the query. *)
Lemma process_requests (E : Env) (client : Groq) (media_type : str)
    (uploaded_file : UploadedFile.t) (query : str) (w : World) :
  exists evs,
    log (snd ((process_and_analyze E client media_type uploaded_file query ;;
               tips_and_footer) w)) = evs ++ log w /\
    (List.filter is_request evs = [] \/
     exists payload req,
       truthy_str payload = true /\
       List.filter is_request evs = [EvCreate (api_key client) req] /\
       req = {| messages :=
                  PList [
                    PDict [
                      ("role", PStr "user");
                      ("content", PList [
                         PDict [
                           ("type", PStr "text");
                           ("text",
                            PStr ("Please analyze this image and answer: "
                                  +:+ query))
                         ];
                         PDict [
                           ("type", PStr "image_url");
                           ("image_url", PDict [
                              ("url", PStr ("data:image/jpeg;base64,"
                                            +:+ payload))
                            ])
                         ]
                       ])
                    ]
                  ];
                model := "llama-3.2-11b-vision-preview";
                temperature := 7 # 10;
                max_tokens := 1000 |}).
Proof.
  destruct (emits_prepare_media (fun e => is_request e = false) E
              (fun e _ H => H) media_type uploaded_file w)
    as (evs1 & Hl1 & Hq1).
  unfold process_and_analyze. unfold bind at 1.
  destruct (prepare_media E media_type uploaded_file w) as [[p|e|] w1] eqn:Hpm;
    cbn [snd] in Hl1.
  - rewrite (try_bind_Return _ _ _ _ _ _ Hpm).
    destruct p as [payload|]; cbn [truthy_opt];
      [destruct (truthy_str payload) eqn:Ht|].
    + destruct (analyze_with_groq_run E client (Some payload) query w1)
        as (req & reported & Hreq & Hrun & Hrep).
      rewrite (try_bind_Return _ _ _ _ _ _ Hrun).
      cbn [format_value] in Hreq.
      assert (Hone : forall post,
                Forall (fun e => is_request e = false) post ->
                List.filter is_request
                  (tips_events ++ post ++ reported
                   ++ [EvCreate (api_key client) req;
                       EvSpinner "Analyzing with Groq..."] ++ evs1)
                = [EvCreate (api_key client) req]).
      { intros post Hpost.
        rewrite !List.filter_app, (filter_quiet post Hpost),
          (filter_quiet evs1 Hq1).
        rewrite (filter_quiet reported); [reflexivity|].
        rewrite Hrep.
        destruct (endpoint E _ _) as [e|[[|choice rest]]];
          repeat constructor. }
      destruct (match endpoint E (api_key client) req with
                | inr {| choices := choice :: _ |} => content (message choice)
                | _ => None
                end) as [text|]; [destruct (truthy_str text)|].
      * exists (tips_events
                ++ [EvWrite text; EvWrite "### Analysis Results";
                    EvSuccess "Analysis Complete!"]
                ++ reported ++ [EvCreate (api_key client) req;
                                EvSpinner "Analyzing with Groq..."] ++ evs1).
        split; [log_after Hl1|]. right. exists payload, req.
        split; [exact Ht|]. split; [|exact Hreq].
        apply Hone. repeat constructor.
      * exists (tips_events ++ [] ++ reported
                ++ [EvCreate (api_key client) req;
                    EvSpinner "Analyzing with Groq..."] ++ evs1).
        split; [log_after Hl1|]. right. exists payload, req.
        split; [exact Ht|]. split; [|exact Hreq].
        apply Hone. constructor.
      * exists (tips_events ++ [] ++ reported
                ++ [EvCreate (api_key client) req;
                    EvSpinner "Analyzing with Groq..."] ++ evs1).
        split; [log_after Hl1|]. right. exists payload, req.
        split; [exact Ht|]. split; [|exact Hreq].
        apply Hone. constructor.
    + exists (tips_events ++ [EvError "Failed to process media file."]
              ++ evs1).
      split; [log_after Hl1|]. left.
      rewrite !List.filter_app, (filter_quiet evs1 Hq1). reflexivity.
    + exists (tips_events ++ [EvError "Failed to process media file."]
              ++ evs1).
      split; [log_after Hl1|]. left.
      rewrite !List.filter_app, (filter_quiet evs1 Hq1). reflexivity.
  - rewrite (try_bind_Raise _ _ _ _ _ _ Hpm).
    exists (tips_events ++ [EvError ("An error occurred: " +:+ exn_str e)]
            ++ evs1).
    split; [log_after Hl1|]. left.
    rewrite !List.filter_app, (filter_quiet evs1 Hq1). reflexivity.
  - rewrite (try_bind_Stopped _ _ _ _ _ Hpm).
    exists evs1. split; [exact Hl1|]. left. apply filter_quiet, Hq1.
Qed.

(** X10. A run of main sends at most one request.  When it sends one, a key
    was available, an upload and a non-empty question were given, the
    upload passed the size gate, and the request carries the key that was
    obtained (the secret, or else the typed key), the question behind the
    instruction phrase, a non-empty payload as a JPEG data URI, and the
    fixed model parameters. *)
Theorem main_requests (E : Env) (w : World) :
  exists evs,
    log (snd (main E w)) = evs ++ log w /\
    (List.filter is_request evs = [] \/
     exists payload req,
       has_key E = true /\ submitted E = true /\ rejects E = false /\
       truthy_str (acquired_key E) = true /\
       truthy_str payload = true /\
       List.filter is_request evs = [EvCreate (acquired_key E) req] /\
       req = {| messages :=
                  PList [
                    PDict [
                      ("role", PStr "user");
                      ("content", PList [
                         PDict [
                           ("type", PStr "text");
                           ("text",
                            PStr ("Please analyze this image and answer: "
                                  +:+ question E))
                         ];
                         PDict [
                           ("type", PStr "image_url");
                           ("image_url", PDict [
                              ("url", PStr ("data:image/jpeg;base64,"
                                            +:+ payload))
                            ])
                         ]
                       ])
                    ]
                  ];
                model := "llama-3.2-11b-vision-preview";
                temperature := 7 # 10;
                max_tokens := 1000 |}).
Proof.
  assert (Hpage : List.filter is_request (page_events E) = []).
  { apply filter_quiet. eapply Forall_impl; [apply page_events_quiet|].
    intros e [He _]. exact He. }
  destruct (has_key E) eqn:Hkey.
  - rewrite (main_page E w Hkey). unfold submitted, rejects.
    destruct (uploaded E) as [uploaded_file|];
      [destruct (truthy_str (question E)) eqn:Hq;
       [destruct (Qgtb _ _) eqn:Hgate|]|].
    + exists (too_large_error :: page_events E).
      split; [reflexivity|]. left. cbn. exact Hpage.
    + destruct (process_requests E {| api_key := acquired_key E |}
                  (media_label E) uploaded_file (question E)
                  (record (page_events E) w)) as (evs & Hl & Hreq).
      exists (evs ++ page_events E). rewrite Hl. cbn [record log].
      rewrite <- app_assoc. split; [reflexivity|].
      rewrite List.filter_app, Hpage, app_nil_r.
      destruct Hreq as [Hnone|(payload & req & Ht & Hone & Hr)];
        [left; exact Hnone|].
      right. exists payload, req. cbn [api_key] in Hone.
      repeat split; try assumption.
      apply (load_api_key_has_key E w Hkey).
    + exists (tips_events ++ page_events E).
      split; [reflexivity|]. left.
      rewrite List.filter_app, Hpage. reflexivity.
    + exists (tips_events ++ page_events E).
      split; [reflexivity|]. left.
      rewrite List.filter_app, Hpage. reflexivity.
  - unfold has_key in Hkey.
    destruct (secrets E !! "GROQ_API_KEY") as [k|] eqn:Hs.
    + apply orb_false_iff in Hkey. destruct Hkey as [Hk Ht].
      rewrite (main_stops E w k Hs Hk Ht).
      eexists. split; [reflexivity|]. left. reflexivity.
    + rewrite (main_missing_key E w Hs).
      eexists. split; [reflexivity|]. left. reflexivity.
Qed.

(** ** Failures of the endpoint *)

(** X11. analyze_with_groq always returns and leaves the disk and the read
    position as they were.  It sends its request first; when the endpoint
    raises, it reports "Analysis error: " followed by the exception's
    message and returns None; when the endpoint answers without any
    choice, it reports "Analysis error: list index out of range" and
    returns None; otherwise it reports nothing. *)
Theorem analyze_with_groq_failures (E : Env) (client : Groq)
    (base64_image : option str) (query : str) (w : World) :
  exists result req reported,
    analyze_with_groq E client base64_image query w =
      (Return result,
       record (reported ++ [EvCreate (api_key client) req;
                            EvSpinner "Analyzing with Groq..."]) w) /\
    match endpoint E (api_key client) req with
    | inl e =>
        result = None /\
        reported = [EvError ("Analysis error: " +:+ exn_str e)]
    | inr resp =>
        match choices resp with
        | [] =>
            result = None /\
            reported = [EvError "Analysis error: list index out of range"]
        | choice :: _ =>
            result = content (message choice) /\ reported = []
        end
    end.
Proof.
  destruct (analyze_with_groq_run E client base64_image query w)
    as (req & reported & _ & Hrun & Hrep).
  eexists _, req, reported. split; [exact Hrun|].
  rewrite Hrep.
  destruct (endpoint E _ _) as [e|[[|choice rest]]]; cbn; split; reflexivity.
Qed.

(** ** The size of the image payload *)

Lemma length_b64encode (bs : bytes) :
  length (base64.b64encode bs) = (4 * ((length bs + 2) / 3))%nat.
Proof.
  induction bs as [|a|a b|a b c rest IH] using list_ind3;
    try reflexivity.
  cbn [base64.b64encode].
  destruct (base64.sextets _ _ _) as [[[s1 s2] s3] s4].
  cbn [length]. rewrite IH.
  replace (S (S (S (length rest))) + 2)%nat
    with ((length rest + 2) + 1 * 3)%nat by lia.
  rewrite Nat.div_add by lia. lia.
Qed.

Lemma length_string_of_list_byte (bs : bytes) :
  String.length (string_of_list_byte bs) = length bs.
Proof.
  induction bs as [|b bs IH]; [reflexivity|].
  unfold string_of_list_byte in *. simpl. f_equal. exact IH.
Qed.

(** X12. On an open upload of n bytes, encode_image returns a payload of
    4 * ceil(n / 3) characters; the payload is empty, hence falsy for
    main, exactly when the file is empty. *)
Theorem encode_image_payload_length (file : UploadedFile.t) (w : World) :
  UploadedFile.closed file = false ->
  exists payload,
    fst (encode_image file w) = Return (Some payload) /\
    String.length payload
      = (4 * ((length (UploadedFile.data file) + 2) / 3))%nat /\
    (truthy_str payload = false <-> UploadedFile.data file = []).
Proof.
  intros Hopen. rewrite (encode_image_open file w Hopen). cbn [fst].
  eexists. split; [reflexivity|]. split.
  - rewrite length_string_of_list_byte. apply length_b64encode.
  - destruct (UploadedFile.data file) as [|a [|b [|c rest]]];
      cbn [base64.b64encode];
      try destruct (base64.sextets _ _ _) as [[[s1 s2] s3] s4];
      cbn; split; (reflexivity || discriminate).
Qed.

(** ** The page and the disk *)

Lemma keeps_files_bind {A B} (m : M A) (k : A -> M B) :
  keeps_files m -> (forall a, keeps_files (k a)) -> keeps_files (bind m k).
Proof.
  intros Hm Hk w. unfold bind. specialize (Hm w).
  destruct (m w) as [[a|e|] w']; cbn in *; [|assumption..].
  rewrite Hk. exact Hm.
Qed.

Lemma keeps_files_try {A} (body : M A) (handler : exn -> M A) :
  keeps_files body -> (forall e, keeps_files (handler e)) ->
  keeps_files (try_except body handler).
Proof.
  intros Hb Hh w. unfold try_except. specialize (Hb w).
  destruct (body w) as [[a|e|] w']; cbn in *; [assumption| |assumption].
  rewrite Hh. exact Hb.
Qed.

Lemma keeps_files_emit (e : event) : keeps_files (emit e).
Proof. intros w. reflexivity. Qed.

Lemma keeps_files_ret {A} (a : A) : keeps_files (ret a).
Proof. intros w. reflexivity. Qed.

Lemma keeps_files_lift {A} (r : exn + A) : keeps_files (lift r).
Proof. destruct r; intros w; reflexivity. Qed.

Lemma keeps_files_encode_image (file : UploadedFile.t) :
  keeps_files (encode_image file).
Proof.
  intros w. destruct (UploadedFile.closed file) eqn:Hc.
  - rewrite encode_image_closed by assumption. reflexivity.
  - rewrite encode_image_open by assumption. reflexivity.
Qed.

Lemma keeps_files_analyze_with_groq (E : Env) (client : Groq)
    (base64_image : option str) (query : str) :
  keeps_files (analyze_with_groq E client base64_image query).
Proof.
  intros w.
  destruct (analyze_with_groq_run E client base64_image query w)
    as (req & reported & _ & -> & _).
  reflexivity.
Qed.

(** After the media step, nothing in the processing block or at the end of
    the page touches the disk. *)
Lemma process_and_analyze_files (E : Env) (client : Groq) (media_type : str)
    (uploaded_file : UploadedFile.t) (query : str) (w : World) :
  files (snd ((process_and_analyze E client media_type uploaded_file query ;;
               tips_and_footer) w))
  = files (snd (prepare_media E media_type uploaded_file w)).
Proof.
  unfold process_and_analyze.
  match goal with |- context [try_except (bind _ ?k) ?h] =>
    assert (Hk : forall r, keeps_files
                   (bind (try_except (k r) h) (fun _ => tips_and_footer)));
    [|assert (Hh : forall e, keeps_files
                     (bind (h e) (fun _ => tips_and_footer)))]
  end.
  { intros r. apply keeps_files_bind; [|intros _ w'; reflexivity].
    unfold st.success, st.write, st.error.
    apply keeps_files_try; [|intros e; apply keeps_files_emit].
    destruct (truthy_opt truthy_str r); [|apply keeps_files_emit].
    apply keeps_files_bind; [apply keeps_files_analyze_with_groq|].
    intros [text|]; [|apply keeps_files_ret].
    destruct (truthy_str text); [|apply keeps_files_ret].
    repeat (apply keeps_files_bind; [apply keeps_files_emit|intros _]).
    apply keeps_files_emit. }
  { intros e. apply keeps_files_bind; [|intros _ w'; reflexivity].
    apply keeps_files_emit. }
  unfold bind at 1.
  destruct (prepare_media E media_type uploaded_file w) as [[r|e|] w1] eqn:Hpm.
  - rewrite (try_bind_Return _ _ _ _ _ _ Hpm).
    specialize (Hk r w1). unfold bind at 1 in Hk. exact Hk.
  - rewrite (try_bind_Raise _ _ _ _ _ _ Hpm).
    specialize (Hh e w1). unfold bind at 1 in Hh. exact Hh.
  - rewrite (try_bind_Stopped _ _ _ _ _ Hpm). reflexivity.
Qed.

(** The disk after the media step: untouched for an image, and what the
    frame extractor leaves for a video. *)
Lemma prepare_media_files (E : Env) (uploaded_file : UploadedFile.t)
    (w : World) :
  files (snd (prepare_media E (media_label E) uploaded_file w)) =
    match media_picked E with
    | Image_choice => files w
    | Video_choice =>
        files (snd (process_video_frame E uploaded_file
                      (record [EvWrite "Processing video frame..."] w)))
    end.
Proof.
  unfold prepare_media, media_label, st.image_file, st.image, st.write.
  destruct (media_picked E); cbn [String.eqb Ascii.eqb Bool.eqb].
  - assert (H : keeps_files
                  (bind (bind (emit (EvImage "Uploaded Image"))
                           (fun _ => lift (render E
                                             (UploadedFile.data uploaded_file))))
                     (fun _ => encode_image uploaded_file))).
    { apply keeps_files_bind; [|intros _; apply keeps_files_encode_image].
      apply keeps_files_bind; [apply keeps_files_emit|intros _].
      apply keeps_files_lift. }
    apply H.
  - unfold bind, emit, ret. cbv beta iota.
    change {| files := files w; cursor := cursor w;
              log := EvWrite "Processing video frame..." :: log w |}
      with (record [EvWrite "Processing video frame..."] w).
    destruct (process_video_frame_returns E uploaded_file
                (record [EvWrite "Processing video frame..."] w))
      as ([p d] & w' & evs & -> & _).
    destruct d; reflexivity.
Qed.

(** The disk after a run of main: the disk before it, or, when a video
    passes the gate, what the frame extractor leaves. *)
Lemma main_files (E : Env) (w : World) :
  files (snd (main E w)) = files w \/
  media_picked E = Video_choice /\
  exists uploaded_file w1,
    files w1 = files w /\
    files (snd (main E w))
    = files (snd (process_video_frame E uploaded_file w1)).
Proof.
  destruct (has_key E) eqn:Hkey.
  - rewrite (main_page E w Hkey).
    destruct (uploaded E) as [uploaded_file|];
      [destruct (truthy_str (question E)); [destruct (Qgtb _ _)|]|];
      try (left; reflexivity).
    rewrite process_and_analyze_files, prepare_media_files.
    destruct (media_picked E); [left; reflexivity|].
    right. split; [reflexivity|]. eexists _, _. split; [|reflexivity].
    reflexivity.
  - left. unfold has_key in Hkey.
    destruct (secrets E !! "GROQ_API_KEY") as [k|] eqn:Hs.
    + apply orb_false_iff in Hkey. destruct Hkey as [Hk Ht].
      rewrite (main_stops E w k Hs Hk Ht). reflexivity.
    + rewrite (main_missing_key E w Hs). reflexivity.
Qed.

(** X13. A run of main changes no file other than the temporary file of the
    frame extractor: every other path holds after the run what it held
    before, however the run ends. *)
Theorem main_touches_only_tmp (E : Env) (w : World) (p : str) :
  p <> tmp_path E w ->
  files (snd (main E w)) !! p = files w !! p.
Proof.
  intros Hp.
  destruct (main_files E w) as [->|(_ & f & w1 & Hw1 & ->)]; [reflexivity|].
  rewrite <- Hw1. apply process_video_frame_other_files.
  unfold tmp_path in *. rewrite Hw1. exact Hp.
Qed.

(** X14. A run of main on an image leaves the whole disk as it was. *)
Theorem main_image_keeps_disk (E : Env) (w : World) :
  media_picked E = Image_choice ->
  files (snd (main E w)) = files w.
Proof.
  intros Himage.
  destruct (main_files E w) as [H|(Hvideo & _)]; [exact H|congruence].
Qed.

(** ** The further properties at sample inputs *)

(** The failed extraction leaves the other file on the disk as it was. *)
Lemma process_video_frame_touches_only_tmp_witness :
  Sample.kept <> tmp_path Sample.env_encode_error Sample.w1 /\
  files (snd (process_video_frame Sample.env_encode_error Sample.clip
                Sample.w1)) !! Sample.kept
  = files Sample.w1 !! Sample.kept.
Proof.
  assert (H : Sample.kept <> tmp_path Sample.env_encode_error Sample.w1)
    by discriminate.
  split; [exact H|].
  exact (process_video_frame_touches_only_tmp Sample.env_encode_error
           Sample.clip Sample.w1 Sample.kept H).
Defined.

(** After the three-frame clip the disk is empty again. *)
Lemma process_video_frame_restores_disk_witness :
  files (snd (process_video_frame Sample.env_video Sample.clip Sample.w0))
  = files Sample.w0.
Proof.
  apply (process_video_frame_restores_disk Sample.env_video Sample.clip
           Sample.w0 eq_refl).
  - reflexivity.
  - right. exists Sample.frame, (list_byte_of_string "JPG").
    split; reflexivity.
Defined.

(** The payload "SlBH" of the three-frame clip decodes to the buffer "JPG"
    of its frame. *)
Lemma process_video_frame_payload_roundtrip_witness :
  exists frame buffer,
    frame_read (demux Sample.env_video
                  (video_content Sample.clip Sample.w0)) 1 = Some frame /\
    jpeg Sample.env_video frame = inr buffer /\
    base64.b64decode "SlBH" = Some buffer /\
    Some (fromarray (cv2.cvtColor_BGR2RGB Sample.frame))
    = Some (fromarray (cv2.cvtColor_BGR2RGB frame)).
Proof.
  apply (process_video_frame_payload_roundtrip Sample.env_video Sample.clip
           Sample.w0 "SlBH"
           (Some (fromarray (cv2.cvtColor_BGR2RGB Sample.frame)))).
  vm_compute. reflexivity.
Defined.

(** The display image of the three-frame clip is its one-pixel frame with
    the channels exchanged. *)
Lemma process_video_frame_display_image_witness :
  exists frame,
    frame_read (demux Sample.env_video
                  (video_content Sample.clip Sample.w0)) 1 = Some frame /\
    mode (fromarray (cv2.cvtColor_BGR2RGB Sample.frame)) = "RGB" /\
    length (pixels (fromarray (cv2.cvtColor_BGR2RGB Sample.frame)))
    = length frame /\
    forall i (row : list (byte * byte * byte)),
      frame !! i = Some row ->
      exists row',
        pixels (fromarray (cv2.cvtColor_BGR2RGB Sample.frame)) !! i
        = Some row' /\
        length row' = length row /\
        forall j b g r,
          row !! j = Some (b, g, r) -> row' !! j = Some (r, g, b).
Proof.
  apply (process_video_frame_display_image Sample.env_video Sample.clip
           Sample.w0 (Some "SlBH")
           (fromarray (cv2.cvtColor_BGR2RGB Sample.frame))).
  vm_compute. reflexivity.
Defined.

(** The three-frame clip gives the extractor's payload "SlBH", and its
    frame is shown after the extractor's calls. *)
Lemma prepare_media_video_witness :
  exists payload display w2 evs,
    process_video_frame Sample.env_video Sample.clip
      (record [EvWrite "Processing video frame..."] Sample.w0)
    = (Return (payload, display), w2) /\
    prepare_media Sample.env_video "Video" Sample.clip Sample.w0 =
      (Return payload,
       match payload with
       | Some _ => record [EvImage "Analyzed Video Frame (Middle Frame)"] w2
       | None => w2
       end) /\
    log (snd (prepare_media Sample.env_video "Video" Sample.clip Sample.w0))
    = evs ++ log Sample.w0 /\
    (In (EvImage "Analyzed Video Frame (Middle Frame)") evs <->
     payload <> None).
Proof.
  exact (prepare_media_video Sample.env_video "Video" Sample.clip Sample.w0
           eq_refl).
Defined.

(** The page before anything is uploaded: the page, the tips, the
    footer. *)
Lemma main_without_input_witness :
  main Sample.env_idle Sample.w0 =
    (Return tt, record (tips_events ++ page_events Sample.env_idle) Sample.w0)
  /\ Forall (fun e => is_media_step e = false /\ is_request e = false)
       (tips_events ++ page_events Sample.env_idle).
Proof.
  exact (main_without_input Sample.env_idle Sample.w0 eq_refl eq_refl).
Defined.

(** An empty entry and an empty prompt stop the page, although a photo
    and a question are there. *)
Lemma main_halts_without_key_witness :
  main Sample.env_no_key Sample.w0 =
    (Stopped,
     record ([EvStop; EvWarning "Please enter your Groq API key to continue.";
              EvTextInput "Enter your Groq API key:" true] ++ setup_events)
       Sample.w0).
Proof.
  apply (main_halts_without_key Sample.env_no_key Sample.w0).
  - intros H. vm_compute in H. discriminate H.
  - reflexivity.
Defined.

(** 11000000 bytes: the run ends with the error, without tips or
    footer. *)
Lemma main_last_calls_witness :
  exists evs,
    log (snd (main (Sample.env_sized 11000000) Sample.w0))
    = evs ++ page_events (Sample.env_sized 11000000) ++ log Sample.w0 /\
    evs = [too_large_error].
Proof.
  destruct (main_last_calls (Sample.env_sized 11000000) Sample.w0 eq_refl)
    as (evs & Hl & Hr).
  exists evs. split; [exact Hl|exact Hr].
Defined.

(** The three bytes of the photo give four characters. *)
Lemma encode_image_payload_length_witness :
  exists payload,
    fst (encode_image Sample.photo Sample.w0) = Return (Some payload) /\
    String.length payload = 4%nat /\
    (truthy_str payload = false <-> UploadedFile.data Sample.photo = []).
Proof.
  exact (encode_image_payload_length Sample.photo Sample.w0 eq_refl).
Defined.

(** A video run whose frame cannot be encoded leaves the other file on
    the disk as it was. *)
Lemma main_touches_only_tmp_witness :
  Sample.kept <> tmp_path Sample.env_encode_error Sample.w1 /\
  files (snd (main Sample.env_encode_error Sample.w1)) !! Sample.kept
  = files Sample.w1 !! Sample.kept.
Proof.
  assert (H : Sample.kept <> tmp_path Sample.env_encode_error Sample.w1)
    by discriminate.
  split; [exact H|].
  exact (main_touches_only_tmp Sample.env_encode_error Sample.w1
           Sample.kept H).
Defined.

(** The run on the photo leaves the disk as it was. *)
Lemma main_image_keeps_disk_witness :
  media_picked Sample.env_image = Image_choice /\
  files (snd (main Sample.env_image Sample.w1)) = files Sample.w1.
Proof.
  split; [reflexivity|].
  exact (main_image_keeps_disk Sample.env_image Sample.w1 eq_refl).
Defined.
